(** * DashboardContent: selection-driven fetching and auto-refresh

    A shallow embedding of [admin-panel/src/pages/DashboardContent.tsx].
    The component is a function of its props and hook state; what it does
    is issue commands (state setters, endpoint calls, timer calls, console
    output).  Each piece of the source is embedded as the list of commands it
    issues, in program order, and a small interpreter runs the commands on
    an explicit component state.  Asynchronous functions are split at their
    single [await]: the part before it issues the endpoint call, the part
    after it is resumed when the request settles.

    Conventions.  A render and the effects it schedules are one step.  The
    two props are objects or absent, so their truthiness is presence.
    State setters write the hook cells whether or not the component is
    still mounted; after the unmount nothing reads them.  Endpoint calls
    always return a promise, and an answer has the shape its type
    declares, so that nothing is thrown between the [await] and the
    setters. *)

From Stdlib Require Import ZArith List String Ascii Bool Lia DecimalString.
From Stdlib Require Import DecimalPos.
Import ListNotations.
Local Open Scope string_scope.
Local Open Scope list_scope.

(** ** The JavaScript values the component handles *)

Module JS.

(** Identifiers are integers: a number is an integer or NaN.  Fractions
    and the rounding of doubles beyond 2^53 are not represented. *)
Inductive number : Type :=
| Num (z : Z)
| NaN.

(** The values found in the fields of an API response. *)
Inductive value : Type :=
| Undefined
| Null
| Boolean (b : bool)
| Number (n : number)
| Str (s : string)
| Object (ref : nat).

Definition number_truthy (n : number) : bool :=
  match n with
  | Num z => negb (Z.eqb z 0)
  | NaN => false
  end.

Definition string_truthy (s : string) : bool :=
  match s with
  | EmptyString => false
  | String _ _ => true
  end.

Definition truthy (v : value) : bool :=
  match v with
  | Undefined | Null => false
  | Boolean b => b
  | Number n => number_truthy n
  | Str s => string_truthy s
  | Object _ => true
  end.

(** [a || b] on values. *)
Definition or_else (a b : value) : value :=
  if truthy a then a else b.

Definition number_toString (n : number) : string :=
  match n with
  | Num z => NilZero.string_of_int (Z.to_int z)
  | NaN => "NaN"
  end.

(** [v?.toString()]: [None] stands for [undefined]. *)
Definition opt_toString (v : value) : option string :=
  match v with
  | Undefined | Null => None
  | Boolean true => Some "true"
  | Boolean false => Some "false"
  | Number n => Some (number_toString n)
  | Str s => Some s
  | Object _ => Some "[object Object]"
  end.

(** *** [parseInt] with no radix argument *)

Definition is_space (c : ascii) : bool :=
  let n := nat_of_ascii c in
  ((9 <=? n) && (n <=? 13) || (n =? 32))%nat.

Fixpoint trim_start (s : string) : string :=
  match s with
  | String c r => if is_space c then trim_start r else s
  | EmptyString => s
  end.

Definition digit_of (radix : Z) (c : ascii) : option Z :=
  let n := Z.of_nat (nat_of_ascii c) in
  let d :=
    (if (48 <=? n) && (n <=? 57) then Some (n - 48)
     else if (97 <=? n) && (n <=? 122) then Some (n - 87)
     else if (65 <=? n) && (n <=? 90) then Some (n - 55)
     else None)%Z in
  match d with
  | Some k => if (k <? radix)%Z then Some k else None
  | None => None
  end.

(** Longest prefix of digits, accumulated left to right; the flag tells
    whether any digit was read. *)
Fixpoint digits (radix : Z) (s : string) (seen : bool) (acc : Z)
  : bool * Z :=
  match s with
  | String c r =>
      match digit_of radix c with
      | Some d => digits radix r true (acc * radix + d)%Z
      | None => (seen, acc)
      end
  | EmptyString => (seen, acc)
  end.

Definition strip_sign (s : string) : Z * string :=
  match s with
  | String "-"%char r => ((-1)%Z, r)
  | String "+"%char r => (1%Z, r)
  | _ => (1%Z, s)
  end.

Definition strip_hex (s : string) : Z * string :=
  match s with
  | String "0"%char (String "x"%char r) => (16%Z, r)
  | String "0"%char (String "X"%char r) => (16%Z, r)
  | _ => (10%Z, s)
  end.

Definition parseInt (s : string) : number :=
  let (sign, s1) := strip_sign (trim_start s) in
  let (radix, s2) := strip_hex s1 in
  match digits radix s2 false 0%Z with
  | (true, m) => Num (sign * m)
  | (false, _) => NaN
  end.

End JS.

(** ** Data model *)

(** [number | string], the type of the identifiers handed to the two
    loaders. *)
Inductive id_t : Type :=
| IdNum (n : JS.number)
| IdStr (s : string).

Definition id_truthy (v : id_t) : bool :=
  match v with
  | IdNum n => JS.number_truthy n
  | IdStr s => JS.string_truthy s
  end.

Definition id_toString (v : id_t) : string :=
  match v with
  | IdNum n => JS.number_toString n
  | IdStr s => s
  end.

(** The props.  Objects are immutable values; [ref] stands for the
    object's identity, so that two props are the same object exactly when
    they are equal. *)
Module Device.
Record t : Type := { ref : nat; deviceId : option id_t; id : id_t }.
End Device.

Module Hierarchy.
Record t : Type := { ref : nat; id : id_t; level : string; name : string }.
End Hierarchy.

(** What the endpoints answer: [{success, data}]. *)
Module Api.
Record device_t : Type := {
  deviceId : JS.value; deviceSerial : JS.value; deviceName : JS.value;
  deviceLogo : JS.value; metadata : JS.value; createdAt : JS.value;
  wellName : JS.value; companyName : JS.value }.
Record point_t : Type := {
  timestamp : JS.value; gfr : JS.value; gor : JS.value; gvf : JS.value;
  ofr : JS.value; wfr : JS.value; wlr : JS.value; pressure : JS.value;
  temperature : JS.value }.
Record data_t : Type := {
  device : device_t; chartData : list point_t; latestData : JS.value;
  timeRange : JS.value; totalDataPoints : JS.value }.
Record response (A : Type) : Type := { success : bool; data : option A }.
Arguments success {A} _.
Arguments data {A} _.
End Api.

(** [DeviceChartData], the device snapshot. *)
Module Chart.
Record device_t : Type := {
  id : string; serial_number : JS.value; type : JS.value; logo : JS.value;
  metadata : JS.value; created_at : JS.value; location : JS.value;
  company : JS.value }.
Record point_t : Type := {
  timestamp : JS.value; gfr : JS.value; gor : JS.value; gvf : JS.value;
  ofr : JS.value; wfr : JS.value; wlr : JS.value; pressure : JS.value;
  temperature : JS.value }.
Record t : Type := {
  device : device_t; chartData : list point_t; latestData : JS.value;
  timeRange : JS.value; totalDataPoints : JS.value }.
End Chart.

Definition DeviceChartData : Type := Chart.t.

(** [HierarchyChartData] is stored as received; only its identity
    matters here. *)
Record HierarchyChartData : Type := { payload : nat }.

(** A settled promise. *)
Inductive Outcome (A : Type) : Type :=
| Resolved (response : Api.response A)
| Rejected (error : JS.value).
Arguments Resolved {A} _.
Arguments Rejected {A} _.

(** Milliseconds since the epoch. *)
Definition Date : Type := Z.

Definition TimerId : Type := nat.
Definition RequestId : Type := nat.

(** The bindings one render of the component closes over: the two props,
    the token of [useAuth] and the [timeRange] state. *)
Record Render : Type := {
  selectedDevice : option Device.t;
  selectedHierarchy : option Hierarchy.t;
  token : option string;
  timeRange : string }.

(** A call to [apiService]. *)
Inductive Call : Type :=
| getDeviceChartDataEnhanced (deviceId : JS.number) (timeRange token : string)
| getHierarchyChartDataEnhanced (hierarchyId : JS.number)
    (timeRange token : string).

(** What remains of a loader after its [await]: the device loader still
    needs its [deviceId] argument. *)
Inductive Continuation : Type :=
| resumeDevice (deviceId : id_t)
| resumeHierarchy.

Inductive Cmd : Type :=
| setChartData (v : option DeviceChartData)
| setHierarchyChartData (v : option HierarchyChartData)
| setIsLoading (b : bool)
| setLastRefresh (d : Date)
| await (c : Call) (k : Continuation)
| console_error (message : string) (error : JS.value)
| clearInterval (t : TimerId)
| setInterval (r : Render).

(** [!token] fails for [null], [undefined] and the empty string. *)
Definition token_truthy (tok : option string) : option string :=
  match tok with
  | Some t => if JS.string_truthy t then Some t else None
  | None => None
  end.

(** [selectedDevice.deviceId || selectedDevice.id] *)
Definition device_argument (d : Device.t) : id_t :=
  match Device.deviceId d with
  | Some v => if id_truthy v then v else Device.id d
  | None => Device.id d
  end.

(** [typeof deviceId === 'string' ? parseInt(deviceId) : deviceId] *)
Definition deviceIdNumber (deviceId : id_t) : JS.number :=
  match deviceId with
  | IdStr s => JS.parseInt s
  | IdNum n => n
  end.

(** Lines 83-108; [now] is [new Date().toISOString()]. *)
Definition transform_point (point : Api.point_t) : Chart.point_t :=
  {| Chart.timestamp := Api.timestamp point;
     Chart.gfr := Api.gfr point;
     Chart.gor := Api.gor point;
     Chart.gvf := Api.gvf point;
     Chart.ofr := Api.ofr point;
     Chart.wfr := Api.wfr point;
     Chart.wlr := Api.wlr point;
     Chart.pressure := Api.pressure point;
     Chart.temperature := Api.temperature point |}.

Definition transformedData (deviceId : id_t) (data : Api.data_t)
  (now : string) : DeviceChartData :=
  let dev := Api.device data in
  {| Chart.device :=
       {| Chart.id :=
            match JS.opt_toString (Api.deviceId dev) with
            | Some s => if JS.string_truthy s then s else id_toString deviceId
            | None => id_toString deviceId
            end;
          Chart.serial_number := Api.deviceSerial dev;
          Chart.type := Api.deviceName dev;
          Chart.logo := Api.deviceLogo dev;
          Chart.metadata := Api.metadata dev;
          Chart.created_at := JS.or_else (Api.createdAt dev) (JS.Str now);
          Chart.location := Api.wellName dev;
          Chart.company := JS.or_else (Api.companyName dev) (JS.Str "Unknown")
       |};
     Chart.chartData := map transform_point (Api.chartData data);
     Chart.latestData := Api.latestData data;
     Chart.timeRange := Api.timeRange data;
     Chart.totalDataPoints := Api.totalDataPoints data |}.

(** ** The component's state and the interpretation of commands *)

Record State : Type := {
  mounted : bool;
  (** bindings of the latest render *)
  current : Render;
  (** [useState] cells *)
  chartData : option DeviceChartData;
  hierarchyChartData : option HierarchyChartData;
  isLoading : bool;
  lastRefresh : Date;
  (** [useRef] cell *)
  refreshIntervalRef : option TimerId;
  (** live intervals, each with the render its callback closes over *)
  timers : list (TimerId * Render);
  next_timer : TimerId;
  (** requests awaiting settlement *)
  inflight : list (RequestId * Continuation);
  next_request : RequestId;
  (** what the outside has seen: endpoint calls and console lines,
      oldest first *)
  calls : list Call;
  console : list (string * JS.value) }.

Definition drop {A : Type} (k : nat) (l : list (nat * A)) : list (nat * A) :=
  filter (fun p => negb (Nat.eqb (fst p) k)) l.

Fixpoint find {A : Type} (k : nat) (l : list (nat * A)) : option A :=
  match l with
  | [] => None
  | (k', a) :: l' => if Nat.eqb k' k then Some a else find k l'
  end.

Definition exec (s : State) (c : Cmd) : State :=
  match c with
  | setChartData v =>
      {| mounted := mounted s; current := current s; chartData := v;
         hierarchyChartData := hierarchyChartData s; isLoading := isLoading s;
         lastRefresh := lastRefresh s;
         refreshIntervalRef := refreshIntervalRef s; timers := timers s;
         next_timer := next_timer s; inflight := inflight s;
         next_request := next_request s; calls := calls s;
         console := console s |}
  | setHierarchyChartData v =>
      {| mounted := mounted s; current := current s; chartData := chartData s;
         hierarchyChartData := v; isLoading := isLoading s;
         lastRefresh := lastRefresh s;
         refreshIntervalRef := refreshIntervalRef s; timers := timers s;
         next_timer := next_timer s; inflight := inflight s;
         next_request := next_request s; calls := calls s;
         console := console s |}
  | setIsLoading b =>
      {| mounted := mounted s; current := current s; chartData := chartData s;
         hierarchyChartData := hierarchyChartData s; isLoading := b;
         lastRefresh := lastRefresh s;
         refreshIntervalRef := refreshIntervalRef s; timers := timers s;
         next_timer := next_timer s; inflight := inflight s;
         next_request := next_request s; calls := calls s;
         console := console s |}
  | setLastRefresh d =>
      {| mounted := mounted s; current := current s; chartData := chartData s;
         hierarchyChartData := hierarchyChartData s; isLoading := isLoading s;
         lastRefresh := d;
         refreshIntervalRef := refreshIntervalRef s; timers := timers s;
         next_timer := next_timer s; inflight := inflight s;
         next_request := next_request s; calls := calls s;
         console := console s |}
  | await c k =>
      {| mounted := mounted s; current := current s; chartData := chartData s;
         hierarchyChartData := hierarchyChartData s; isLoading := isLoading s;
         lastRefresh := lastRefresh s;
         refreshIntervalRef := refreshIntervalRef s; timers := timers s;
         next_timer := next_timer s;
         inflight := inflight s ++ [(next_request s, k)];
         next_request := S (next_request s); calls := calls s ++ [c];
         console := console s |}
  | console_error m e =>
      {| mounted := mounted s; current := current s; chartData := chartData s;
         hierarchyChartData := hierarchyChartData s; isLoading := isLoading s;
         lastRefresh := lastRefresh s;
         refreshIntervalRef := refreshIntervalRef s; timers := timers s;
         next_timer := next_timer s; inflight := inflight s;
         next_request := next_request s; calls := calls s;
         console := console s ++ [(m, e)] |}
  | clearInterval t =>
      {| mounted := mounted s; current := current s; chartData := chartData s;
         hierarchyChartData := hierarchyChartData s; isLoading := isLoading s;
         lastRefresh := lastRefresh s;
         refreshIntervalRef := refreshIntervalRef s;
         timers := drop t (timers s);
         next_timer := next_timer s; inflight := inflight s;
         next_request := next_request s; calls := calls s;
         console := console s |}
  | setInterval r =>
      (* refreshIntervalRef.current = setInterval(callback, 5000) *)
      {| mounted := mounted s; current := current s; chartData := chartData s;
         hierarchyChartData := hierarchyChartData s; isLoading := isLoading s;
         lastRefresh := lastRefresh s;
         refreshIntervalRef := Some (next_timer s);
         timers := timers s ++ [(next_timer s, r)];
         next_timer := S (next_timer s); inflight := inflight s;
         next_request := next_request s; calls := calls s;
         console := console s |}
  end.

Definition run (cmds : list Cmd) (s : State) : State :=
  fold_left exec cmds s.

(** The render that follows a change of props, token or time range, and
    the removal of a settled request, touch nothing else. *)
Definition with_current (r : Render) (s : State) : State :=
  {| mounted := mounted s; current := r; chartData := chartData s;
     hierarchyChartData := hierarchyChartData s; isLoading := isLoading s;
     lastRefresh := lastRefresh s;
     refreshIntervalRef := refreshIntervalRef s; timers := timers s;
     next_timer := next_timer s; inflight := inflight s;
     next_request := next_request s; calls := calls s;
     console := console s |}.

Definition settled (r : RequestId) (s : State) : State :=
  {| mounted := mounted s; current := current s; chartData := chartData s;
     hierarchyChartData := hierarchyChartData s; isLoading := isLoading s;
     lastRefresh := lastRefresh s;
     refreshIntervalRef := refreshIntervalRef s; timers := timers s;
     next_timer := next_timer s; inflight := drop r (inflight s);
     next_request := next_request s; calls := calls s;
     console := console s |}.

Definition unmounted (s : State) : State :=
  {| mounted := false; current := current s; chartData := chartData s;
     hierarchyChartData := hierarchyChartData s; isLoading := isLoading s;
     lastRefresh := lastRefresh s;
     refreshIntervalRef := refreshIntervalRef s; timers := timers s;
     next_timer := next_timer s; inflight := inflight s;
     next_request := next_request s; calls := calls s;
     console := console s |}.

(** ** Dependency arrays: [Object.is] on each entry *)

Definition id_eq_dec (a b : id_t) : {a = b} + {a <> b}.
Proof. repeat decide equality. Defined.

Definition device_eq_dec (a b : option Device.t) : {a = b} + {a <> b}.
Proof. repeat decide equality. Defined.

Definition hierarchy_eq_dec (a b : option Hierarchy.t) : {a = b} + {a <> b}.
Proof. repeat decide equality. Defined.

Definition token_eq_dec (a b : option string) : {a = b} + {a <> b}.
Proof. repeat decide equality. Defined.

(** [[selectedDevice, selectedHierarchy, token]] *)
Definition timer_deps_same (r r' : Render) : bool :=
  (if device_eq_dec (selectedDevice r) (selectedDevice r') then true
   else false)
  && (if hierarchy_eq_dec (selectedHierarchy r) (selectedHierarchy r')
      then true else false)
  && (if token_eq_dec (token r) (token r') then true else false).

(** [[selectedDevice, selectedHierarchy, timeRange, token]] *)
Definition selection_deps_same (r r' : Render) : bool :=
  timer_deps_same r r' && String.eqb (timeRange r) (timeRange r').

(** The four buttons of the time-range selector. *)
Inductive TimeRangeOption : Type := Hour | Day | Week | Month.

Definition option_value (o : TimeRangeOption) : string :=
  match o with
  | Hour => "hour"
  | Day => "day"
  | Week => "week"
  | Month => "month"
  end.

(** New props or a new token leave the time range alone; a click on a
    time-range button ([setTimeRange(option.value)]) leaves the props and
    the token alone. *)
Definition with_props (r : Render) (d : option Device.t)
  (h : option Hierarchy.t) (tok : option string) : Render :=
  {| selectedDevice := d; selectedHierarchy := h; token := tok;
     timeRange := timeRange r |}.

Definition with_timeRange (r : Render) (v : string) : Render :=
  {| selectedDevice := selectedDevice r;
     selectedHierarchy := selectedHierarchy r; token := token r;
     timeRange := v |}.

(** ** The component *)

Section Component.

(** [Number] applied to a string.  Its result may lie outside the
    integers, and nothing below depends on its value. *)
Variable StringToNumber : string -> JS.number.

(** [Number(hierarchyId)] *)
Definition toNumber (hierarchyId : id_t) : JS.number :=
  match hierarchyId with
  | IdNum n => n
  | IdStr s => StringToNumber s
  end.

(** Lines 73-80, up to the [await]. *)
Definition loadDeviceChartData (r : Render) (deviceId : id_t) : list Cmd :=
  match token_truthy (token r) with
  | None => []
  | Some tok =>
      [ setIsLoading true;
        await (getDeviceChartDataEnhanced (deviceIdNumber deviceId)
                 (timeRange r) tok)
              (resumeDevice deviceId) ]
  end.

(** Lines 81-115, from the [await] on. *)
Definition loadDeviceChartData_resume (deviceId : id_t)
  (o : Outcome Api.data_t) (now : string) : list Cmd :=
  match o with
  | Resolved response =>
      match Api.success response, Api.data response with
      | true, Some data =>
          [ setChartData (Some (transformedData deviceId data now));
            setIsLoading false ]
      | _, _ => [ setIsLoading false ]
      end
  | Rejected error =>
      [ console_error "Failed to load device chart data:" error;
        setIsLoading false ]
  end.

(** Lines 118-123, up to the [await]. *)
Definition loadHierarchyChartData (r : Render) (hierarchyId : id_t)
  : list Cmd :=
  match token_truthy (token r) with
  | None => []
  | Some tok =>
      [ setIsLoading true;
        await (getHierarchyChartDataEnhanced (toNumber hierarchyId)
                 (timeRange r) tok)
              resumeHierarchy ]
  end.

(** Lines 124-131, from the [await] on. *)
Definition loadHierarchyChartData_resume
  (o : Outcome HierarchyChartData) : list Cmd :=
  match o with
  | Resolved response =>
      match Api.success response, Api.data response with
      | true, Some data =>
          [ setHierarchyChartData (Some data); setIsLoading false ]
      | _, _ => [ setIsLoading false ]
      end
  | Rejected error =>
      [ console_error "Failed to load hierarchy chart data:" error;
        setIsLoading false ]
  end.

(** Lines 34-43: the body of the first effect. *)
Definition selection_effect (r : Render) : list Cmd :=
  match selectedDevice r, selectedHierarchy r with
  | Some d, None =>
      loadDeviceChartData r (device_argument d)
        ++ [ setHierarchyChartData None ]
  | None, Some h =>
      loadHierarchyChartData r (Hierarchy.id h) ++ [ setChartData None ]
  | _, _ => []
  end.

(** Lines 52-61: the interval callback, closing over the render [r] in
    which the interval was created. *)
Definition interval_callback (r : Render) (now : Date) : list Cmd :=
  setLastRefresh now ::
  match selectedDevice r, selectedHierarchy r with
  | Some d, None => loadDeviceChartData r (device_argument d)
  | None, Some h => loadHierarchyChartData r (Hierarchy.id h)
  | _, _ => []
  end.

(** Lines 47-64: [startAutoRefresh], given the content of the ref. *)
Definition startAutoRefresh (ref : option TimerId) (r : Render) : list Cmd :=
  match ref with
  | Some t => [ clearInterval t; setInterval r ]
  | None => [ setInterval r ]
  end.

(** Lines 66-70: the cleanup of the second effect. *)
Definition timer_cleanup (ref : option TimerId) : list Cmd :=
  match ref with
  | Some t => [ clearInterval t ]
  | None => []
  end.

(** A render with bindings [r'], followed by its effects: the cleanup of
    an effect whose dependencies changed, then the effects themselves in
    source order. *)
Definition rerender (r' : Render) (s : State) : State :=
  let r := current s in
  let s0 := with_current r' s in
  let s1 := if timer_deps_same r r' then s0
            else run (timer_cleanup (refreshIntervalRef s0)) s0 in
  let s2 := if selection_deps_same r r' then s1
            else run (selection_effect r') s1 in
  if timer_deps_same r r' then s2
  else run (startAutoRefresh (refreshIntervalRef s2) r') s2.

(** The first render, at time [now], and its effects. *)
Definition initial (d : option Device.t) (h : option Hierarchy.t)
  (tok : option string) (now : Date) : State :=
  {| mounted := true;
     current := {| selectedDevice := d; selectedHierarchy := h;
                   token := tok; timeRange := "day" |};
     chartData := None; hierarchyChartData := None; isLoading := false;
     lastRefresh := now; refreshIntervalRef := None; timers := [];
     next_timer := 1; inflight := []; next_request := 1; calls := [];
     console := [] |}.

Definition mount (d : option Device.t) (h : option Hierarchy.t)
  (tok : option string) (now : Date) : State :=
  let s0 := initial d h tok now in
  let s1 := run (selection_effect (current s0)) s0 in
  run (startAutoRefresh (refreshIntervalRef s1) (current s0)) s1.

(** What can happen to a mounted component. *)
Inductive Event : Type :=
| Props (d : option Device.t) (h : option Hierarchy.t) (tok : option string)
| Click (o : TimeRangeOption)
| Tick (t : TimerId) (now : Date)
| SettleDevice (q : RequestId) (o : Outcome Api.data_t) (now : string)
| SettleHierarchy (q : RequestId) (o : Outcome HierarchyChartData)
| Unmount.

Definition step (s : State) (e : Event) : State :=
  match e with
  | Props d h tok =>
      if mounted s then rerender (with_props (current s) d h tok) s else s
  | Click o =>
      if mounted s then
        rerender (with_timeRange (current s) (option_value o)) s
      else s
  | Tick t now =>
      match find t (timers s) with
      | Some r => run (interval_callback r now) s
      | None => s
      end
  | SettleDevice q o now =>
      match find q (inflight s) with
      | Some (resumeDevice deviceId) =>
          run (loadDeviceChartData_resume deviceId o now) (settled q s)
      | _ => s
      end
  | SettleHierarchy q o =>
      match find q (inflight s) with
      | Some resumeHierarchy =>
          run (loadHierarchyChartData_resume o) (settled q s)
      | _ => s
      end
  | Unmount =>
      if mounted s then
        unmounted (run (timer_cleanup (refreshIntervalRef s)) s)
      else s
  end.

Definition steps (s : State) (es : list Event) : State :=
  fold_left step es s.

Inductive reachable : State -> Prop :=
| reach_mount d h tok now : reachable (mount d h tok now)
| reach_step s e : reachable s -> reachable (step s e).

(** The endpoint calls and console lines a step adds. *)
Definition issued (s : State) (e : Event) : list Call :=
  skipn (List.length (calls s)) (calls (step s e)).

Definition logged (s : State) (e : Event) : list (string * JS.value) :=
  skipn (List.length (console s)) (console (step s e)).

End Component.

(** ** Selection kinds and the invariants of a run *)

Inductive Kind : Type := DeviceKind | HierarchyKind.

(** The kind of the selection when exactly one of the two props is set. *)
Definition active_kind (r : Render) : option Kind :=
  match selectedDevice r, selectedHierarchy r with
  | Some _, None => Some DeviceKind
  | None, Some _ => Some HierarchyKind
  | _, _ => None
  end.

Definition continuation_kind (k : Continuation) : Kind :=
  match k with
  | resumeDevice _ => DeviceKind
  | resumeHierarchy => HierarchyKind
  end.

Definition kind_eqb (a b : Kind) : bool :=
  match a, b with
  | DeviceKind, DeviceKind | HierarchyKind, HierarchyKind => true
  | _, _ => false
  end.

Definition other (k : Kind) : Kind :=
  match k with
  | DeviceKind => HierarchyKind
  | HierarchyKind => DeviceKind
  end.

(** No request of kind [k] awaits settlement. *)
Definition none_inflight (k : Kind) (s : State) : bool :=
  forallb (fun p => negb (kind_eqb k (continuation_kind (snd p))))
    (inflight s).

Definition snapshot_empty (k : Kind) (s : State) : bool :=
  match k with
  | DeviceKind => match chartData s with None => true | Some _ => false end
  | HierarchyKind =>
      match hierarchyChartData s with None => true | Some _ => false end
  end.

(** At most one of the two snapshot slots is populated. *)
Definition at_most_one_snapshot (s : State) : Prop :=
  chartData s = None \/ hierarchyChartData s = None.

(** What the children are handed (lines 194-273): the loading mark, the
    two snapshots, the props, the refresh time and the time range. *)
Record View : Type := {
  view_isLoading : bool;
  view_selectedHierarchy : option Hierarchy.t;
  view_selectedDevice : option Device.t;
  view_chartData : option DeviceChartData;
  view_hierarchyChartData : option HierarchyChartData;
  view_lastRefresh : Date;
  view_timeRange : string }.

Definition view (s : State) : View :=
  {| view_isLoading := isLoading s;
     view_selectedHierarchy := selectedHierarchy (current s);
     view_selectedDevice := selectedDevice (current s);
     view_chartData := chartData s;
     view_hierarchyChartData := hierarchyChartData s;
     view_lastRefresh := lastRefresh s;
     view_timeRange := timeRange (current s) |}.

(** The one interval of a mounted component: it is the one the ref holds,
    and its callback closes over the current selection and token. *)
Definition timer_invariant (s : State) : Prop :=
  if mounted s then
    exists t r,
      timers s = [(t, r)] /\ refreshIntervalRef s = Some t /\
      t < next_timer s /\
      selectedDevice r = selectedDevice (current s) /\
      selectedHierarchy r = selectedHierarchy (current s) /\
      token r = token (current s)
  else timers s = [].

Record Inv (s : State) : Prop := {
  inv_timer : timer_invariant s;
  inv_loading : isLoading s = true -> inflight s <> [];
  inv_calls : calls s = [] -> inflight s = [] }.

(** ** Runs in which no stale request is pending when the selection
    reaction runs *)

(** Either the first effect does not run for [r'], or [r'] selects
    exactly one kind and no request of the other kind is pending. *)
Definition quiet (s : State) (r' : Render) : bool :=
  selection_deps_same (current s) r'
  || match active_kind r' with
     | Some k => none_inflight (other k) s
     | None => true
     end.

Section Discipline.

Variable StringToNumber : string -> JS.number.

Definition calm (s : State) (e : Event) : bool :=
  match e with
  | Props d h tok => quiet s (with_props (current s) d h tok)
  | Click o => quiet s (with_timeRange (current s) (option_value o))
  | _ => true
  end.

Inductive calm_reachable : State -> Prop :=
| calm_mount d h tok now : calm_reachable (mount StringToNumber d h tok now)
| calm_step s e :
    calm_reachable s -> calm s e = true ->
    calm_reachable (step StringToNumber s e).

End Discipline.

(** ** Sample data for the concrete runs *)

Fixpoint all_decimal (s : string) : bool :=
  match s with
  | String c r =>
      match JS.digit_of 10 c with
      | Some _ => all_decimal r
      | None => false
      end
  | EmptyString => true
  end.

(** [Number] on strings, exact on the unsigned decimal literals and on the
    empty string; the sample runs use numeric identifiers only. *)
Definition DecimalToNumber (s : string) : JS.number :=
  if all_decimal s then JS.Num (snd (JS.digits 10 s false 0%Z)) else JS.NaN.

Definition device7 : Device.t :=
  {| Device.ref := 1; Device.deviceId := Some (IdNum (JS.Num 7));
     Device.id := IdStr "7" |}.

Definition region3 : Hierarchy.t :=
  {| Hierarchy.ref := 2; Hierarchy.id := IdNum (JS.Num 3);
     Hierarchy.level := "Region"; Hierarchy.name := "North" |}.

Definition sample_device : Api.device_t :=
  {| Api.deviceId := JS.Number (JS.Num 7);
     Api.deviceSerial := JS.Str "SN-7";
     Api.deviceName := JS.Str "MPFM";
     Api.deviceLogo := JS.Null;
     Api.metadata := JS.Object 10;
     Api.createdAt := JS.Str "2024-01-01T00:00:00.000Z";
     Api.wellName := JS.Str "Well A";
     Api.companyName := JS.Undefined |}.

Definition sample_point : Api.point_t :=
  {| Api.timestamp := JS.Str "2024-01-02T00:00:00.000Z";
     Api.gfr := JS.Number (JS.Num 5); Api.gor := JS.Number (JS.Num 2);
     Api.gvf := JS.Number (JS.Num 40); Api.ofr := JS.Number (JS.Num 9);
     Api.wfr := JS.Number (JS.Num 1); Api.wlr := JS.Number (JS.Num 10);
     Api.pressure := JS.Number (JS.Num 101);
     Api.temperature := JS.Number (JS.Num 60) |}.

Definition sample_data : Api.data_t :=
  {| Api.device := sample_device; Api.chartData := [sample_point];
     Api.latestData := JS.Object 11; Api.timeRange := JS.Str "day";
     Api.totalDataPoints := JS.Number (JS.Num 1) |}.

Definition device_ok : Outcome Api.data_t :=
  Resolved {| Api.success := true; Api.data := Some sample_data |}.

Definition hierarchy_ok : Outcome HierarchyChartData :=
  Resolved {| Api.success := true; Api.data := Some {| payload := 12 |} |}.

Definition iso_now : string := "2024-01-03T00:00:00.000Z".

(** Device 7 selected, signed in, first render at time 1000. *)
Definition device_mounted : State :=
  mount DecimalToNumber (Some device7) None (Some "tok") 1000%Z.

(** The view with the loading mark taken down. *)
Definition loading_cleared (v : View) : View :=
  {| view_isLoading := false;
     view_selectedHierarchy := view_selectedHierarchy v;
     view_selectedDevice := view_selectedDevice v;
     view_chartData := view_chartData v;
     view_hierarchyChartData := view_hierarchyChartData v;
     view_lastRefresh := view_lastRefresh v;
     view_timeRange := view_timeRange v |}.

(** The slot of kind [k] is empty and no pending request can fill it. *)
Definition clear_of (k : Kind) (s : State) : Prop :=
  snapshot_empty k s = true /\ none_inflight k s = true.

(** One of the two kinds is clear and is not the selected one. *)
Definition Separated (s : State) : Prop :=
  (clear_of HierarchyKind s /\ active_kind (current s) <> Some HierarchyKind)
  \/ (clear_of DeviceKind s /\ active_kind (current s) <> Some DeviceKind).

(** Device 7 selected, nobody signed in. *)
Definition signed_out_mounted : State :=
  mount DecimalToNumber (Some device7) None None 1000%Z.

(** The device answer has arrived. *)
Definition device_loaded : State :=
  step DecimalToNumber device_mounted (SettleDevice 1 device_ok iso_now).

(** The user switches to region 3 while the device request is pending;
    the hierarchy answer arrives, then the device answer. *)
Definition late_device_answer : State :=
  steps DecimalToNumber device_mounted
    [ Props None (Some region3) (Some "tok");
      SettleHierarchy 2 hierarchy_ok;
      SettleDevice 1 device_ok iso_now ].

(** ** Display mode, lines 134-142 *)

(** [selectedHierarchy.id === selectedHierarchy.name]: strict equality of
    an identifier with a string. *)
Definition id_is_string (v : id_t) (s : string) : bool :=
  match v with
  | IdStr s' => String.eqb s' s
  | IdNum _ => false
  end.

(** [selectedHierarchy?.level === 'Well' || selectedDevice], as the
    condition it is used for. *)
Definition shouldShowFractions (r : Render) : bool :=
  match selectedHierarchy r with
  | Some h => String.eqb (Hierarchy.level h) "Well"
  | None => false
  end
  || match selectedDevice r with
     | Some _ => true
     | None => false
     end.

Definition shouldShowTopRegions (r : Render) : bool :=
  negb (shouldShowFractions r)
  && match selectedHierarchy r with
     | None => true
     | Some h =>
         String.eqb (Hierarchy.level h) "Region"
         || String.eqb (Hierarchy.level h) "Area"
         || String.eqb (Hierarchy.level h) "Field"
         || id_is_string (Hierarchy.id h) (Hierarchy.name h)
     end.

(** ** What is rendered, lines 144-278 *)

Definition timeRangeOptions : list TimeRangeOption :=
  [Hour; Day; Week; Month].

Definition option_label (o : TimeRangeOption) : string :=
  match o with
  | Hour => "Hour"
  | Day => "Day"
  | Week => "Week"
  | Month => "Month"
  end.

(** A time-range button: its label and whether it is drawn as the
    selected one ([timeRange === option.value]). *)
Definition time_range_buttons (s : State) : list (string * bool) :=
  map (fun o =>
         (option_label o, String.eqb (timeRange (current s)) (option_value o)))
      timeRangeOptions.

(** The line under the buttons, present while [isLoading]. *)
Definition loading_line (s : State) : option string :=
  if isLoading s
  then Some ("Loading " ++ timeRange (current s) ++ " data...")%string
  else None.

(** [children || (...)]: truthy children replace the whole dashboard. *)
Inductive Output : Type :=
| ShowChildren (children : nat)
| ShowDashboard (buttons : list (string * bool)) (loading : option string)
    (charts : View).

Definition render (children : option nat) (s : State) : Output :=
  match children with
  | Some c => ShowChildren c
  | None => ShowDashboard (time_range_buttons s) (loading_line s) (view s)
  end.

(** ** What an endpoint call carries *)

Definition call_timeRange (c : Call) : string :=
  match c with
  | getDeviceChartDataEnhanced _ tr _ => tr
  | getHierarchyChartDataEnhanced _ tr _ => tr
  end.

Definition call_token (c : Call) : string :=
  match c with
  | getDeviceChartDataEnhanced _ _ tok => tok
  | getHierarchyChartDataEnhanced _ _ tok => tok
  end.

Definition call_kind (c : Call) : Kind :=
  match c with
  | getDeviceChartDataEnhanced _ _ _ => DeviceKind
  | getHierarchyChartDataEnhanced _ _ _ => HierarchyKind
  end.

Definition is_option (v : string) : bool :=
  existsb (fun o => String.eqb v (option_value o)) timeRangeOptions.

(** The call has a non-empty token and one of the four time ranges. *)
Definition well_formed_call (c : Call) : bool :=
  JS.string_truthy (call_token c) && is_option (call_timeRange c).

(** The time range of every render in sight is one of the four, and every
    call made so far is well formed. *)
Record Ranges (s : State) : Prop := {
  ranges_current : is_option (timeRange (current s)) = true;
  ranges_timers :
    forallb (fun p => is_option (timeRange (snd p))) (timers s) = true;
  ranges_calls : forallb well_formed_call (calls s) = true }.

(** An event that re-renders the component. *)
Definition is_render (e : Event) : bool :=
  match e with
  | Props _ _ _ | Click _ => true
  | _ => false
  end.

(** A device whose [deviceId] is 0 and whose [id] is a hexadecimal
    string, and a well. *)
Definition hex_device : Device.t :=
  {| Device.ref := 3; Device.deviceId := Some (IdNum (JS.Num 0));
     Device.id := IdStr "0x1f" |}.

Definition well9 : Hierarchy.t :=
  {| Hierarchy.ref := 4; Hierarchy.id := IdStr "9";
     Hierarchy.level := "Well"; Hierarchy.name := "W-9" |}.

(** Region 3 selected, signed in, first render at time 1000. *)
Definition region_mounted : State :=
  mount DecimalToNumber None (Some region3) (Some "tok") 1000%Z.

(** The time range was switched to a week while the first request was
    still pending. *)
Definition two_pending : State :=
  step DecimalToNumber device_mounted (Click Week).

(** ** Properties *)

Section Properties.

Variable N : string -> JS.number.

Lemma run_app (a b : list Cmd) (s : State) :
  run (a ++ b) s = run b (run a s).
Proof. unfold run. apply fold_left_app. Qed.

Lemma timer_deps_same_true (r r' : Render) :
  timer_deps_same r r' = true ->
  selectedDevice r = selectedDevice r' /\
  selectedHierarchy r = selectedHierarchy r' /\ token r = token r'.
Proof.
  unfold timer_deps_same.
  destruct (device_eq_dec _ _), (hierarchy_eq_dec _ _), (token_eq_dec _ _);
    simpl; intros; try discriminate; auto.
Qed.

Lemma timer_deps_same_false (r r' : Render) :
  timer_deps_same r r' = false ->
  selectedDevice r <> selectedDevice r' \/
  selectedHierarchy r <> selectedHierarchy r' \/ token r <> token r'.
Proof.
  unfold timer_deps_same.
  destruct (device_eq_dec _ _), (hierarchy_eq_dec _ _), (token_eq_dec _ _);
    simpl; intros; try discriminate; auto.
Qed.

Lemma timer_deps_same_refl (r r' : Render) :
  selectedDevice r = selectedDevice r' ->
  selectedHierarchy r = selectedHierarchy r' -> token r = token r' ->
  timer_deps_same r r' = true.
Proof.
  unfold timer_deps_same. intros -> -> ->.
  destruct (device_eq_dec _ _), (hierarchy_eq_dec _ _), (token_eq_dec _ _);
    simpl; congruence.
Qed.

Lemma selection_deps_same_true (r r' : Render) :
  selection_deps_same r r' = true ->
  timer_deps_same r r' = true /\ timeRange r = timeRange r'.
Proof.
  unfold selection_deps_same. intros H.
  apply andb_true_iff in H. destruct H as [H1 H2].
  apply String.eqb_eq in H2. auto.
Qed.

Lemma selection_deps_same_eq (r r' : Render) :
  selection_deps_same r r' = true -> r = r'.
Proof.
  intros H. apply selection_deps_same_true in H. destruct H as [H1 H2].
  apply timer_deps_same_true in H1. destruct H1 as (Hd & Hh & Ht).
  destruct r, r'; simpl in *; congruence.
Qed.

Lemma with_current_same (s : State) : with_current (current s) s = s.
Proof. destruct s; reflexivity. Qed.

(** A render whose bindings did not change runs no effect. *)
Lemma rerender_same (r' : Render) (s : State) :
  selection_deps_same (current s) r' = true -> rerender N r' s = s.
Proof.
  intros H. unfold rerender.
  destruct (selection_deps_same_true _ _ H) as [H1 _].
  rewrite H, H1. apply selection_deps_same_eq in H. subst r'.
  apply with_current_same.
Qed.

Lemma drop_single {A : Type} (t : nat) (a : A) : drop t [(t, a)] = [].
Proof. unfold drop; simpl. rewrite Nat.eqb_refl. reflexivity. Qed.

Lemma app_not_nil {A : Type} (l : list A) (a : A) : l ++ [a] <> [].
Proof. destruct l; discriminate. Qed.

Create HintDb dash.
#[local] Hint Resolve app_not_nil : dash.

Lemma Inv_mount d h tok now : Inv (mount N d h tok now).
Proof.
  unfold mount, selection_effect, loadDeviceChartData,
    loadHierarchyChartData; simpl.
  destruct d, h, (token_truthy tok); simpl;
    (split;
     [ unfold timer_invariant; simpl; eexists _, _; repeat split;
       simpl; auto
     | simpl; intros; try discriminate
     | simpl; intros; try discriminate; auto ]).
Qed.


Lemma Inv_rerender (r' : Render) (s : State) :
  mounted s = true -> Inv s -> Inv (rerender N r' s).
Proof.
  intros Hm HI.
  destruct (selection_deps_same (current s) r') eqn:Es.
  { rewrite rerender_same; auto. }
  destruct HI as [Ht Hl Hc]. unfold timer_invariant in Ht. rewrite Hm in Ht.
  destruct Ht as (t & r & Ht & Href & Hlt & Hd & Hh & Hk).
  unfold rerender, selection_effect, loadDeviceChartData,
    loadHierarchyChartData. rewrite Es.
  destruct s; simpl in *; subst.
  destruct (timer_deps_same _ r') eqn:Et;
    [ apply timer_deps_same_true in Et; destruct Et as (Et1 & Et2 & Et3) | ];
  destruct (selectedDevice r') eqn:Ed; destruct (selectedHierarchy r') eqn:Eh;
  destruct (token_truthy (token r')) eqn:Ek; simpl;
  rewrite ?Nat.eqb_refl; simpl.
  all: split; unfold timer_invariant; simpl.
  all: try (intros; auto with dash; fail).
  all: try (intros; exfalso; eapply app_not_nil; eauto; fail).
  all: try (eexists _, _; repeat split; eauto; congruence).
Qed.

Lemma Inv_tick (t : TimerId) (now : Date) (s : State) :
  Inv s -> Inv (step N s (Tick t now)).
Proof.
  intros [Ht Hl Hc]. unfold step.
  destruct (find t (timers s)) as [r|]; [ | split; assumption ].
  unfold interval_callback, loadDeviceChartData, loadHierarchyChartData.
  destruct s; simpl in *.
  destruct (selectedDevice r), (selectedHierarchy r),
    (token_truthy (token r)); simpl.
  all: split; try exact Ht; simpl; intros; auto with dash.
  all: exfalso; eapply app_not_nil; eauto.
Qed.

Lemma Inv_settle_device q o now (s : State) :
  Inv s -> Inv (step N s (SettleDevice q o now)).
Proof.
  intros HI. unfold step.
  destruct (find q (inflight s)) as [[k|]|] eqn:Ef; try assumption.
  destruct HI as [Ht Hl Hc].
  assert (Hne : calls s <> []).
  { intros E. rewrite (Hc E) in Ef. discriminate. }
  unfold loadDeviceChartData_resume.
  destruct s; simpl in *.
  destruct o as [[[] [d|]]|e]; simpl.
  all: split; try exact Ht; simpl; intros; congruence.
Qed.

Lemma Inv_settle_hierarchy q o (s : State) :
  Inv s -> Inv (step N s (SettleHierarchy q o)).
Proof.
  intros HI. unfold step.
  destruct (find q (inflight s)) as [[k|]|] eqn:Ef; try assumption.
  destruct HI as [Ht Hl Hc].
  assert (Hne : calls s <> []).
  { intros E. rewrite (Hc E) in Ef. discriminate. }
  unfold loadHierarchyChartData_resume.
  destruct s; simpl in *.
  destruct o as [[[] [d|]]|e]; simpl.
  all: split; try exact Ht; simpl; intros; congruence.
Qed.

Lemma Inv_unmount (s : State) : Inv s -> Inv (step N s Unmount).
Proof.
  intros HI. unfold step.
  destruct (mounted s) eqn:Hm; try assumption.
  destruct HI as [Ht Hl Hc]. unfold timer_invariant in Ht. rewrite Hm in Ht.
  destruct Ht as (t & r & Ht & Href & _).
  destruct s; simpl in *; subst. simpl. rewrite Nat.eqb_refl.
  split; unfold timer_invariant; simpl; auto.
Qed.

Lemma Inv_step (s : State) (e : Event) : Inv s -> Inv (step N s e).
Proof.
  intros HI. destruct e.
  - simpl. destruct (mounted s) eqn:Hm; auto using Inv_rerender.
  - simpl. destruct (mounted s) eqn:Hm; auto using Inv_rerender.
  - apply Inv_tick; assumption.
  - apply Inv_settle_device; assumption.
  - apply Inv_settle_hierarchy; assumption.
  - apply Inv_unmount; assumption.
Qed.

Lemma reachable_steps (es : list Event) (s : State) :
  reachable N s -> reachable N (steps N s es).
Proof.
  revert s. induction es as [|e es IH]; intros s Hr; simpl; auto.
  apply IH. constructor. assumption.
Qed.

Lemma Inv_reachable (s : State) : reachable N s -> Inv s.
Proof.
  induction 1; [ apply Inv_mount | apply Inv_step; assumption ].
Qed.


(** *** The selection reaction *)

Lemma current_rerender (r' : Render) (s : State) :
  current (rerender N r' s) = r'.
Proof.
  unfold rerender, selection_effect, startAutoRefresh, timer_cleanup,
    loadDeviceChartData, loadHierarchyChartData.
  destruct s; simpl.
  destruct (timer_deps_same _ _), (selection_deps_same _ _),
    refreshIntervalRef0, (selectedDevice r'), (selectedHierarchy r'),
    (token_truthy (token r')); reflexivity.
Qed.

(** What the render adds to the call history, by selection and token. *)
Lemma calls_rerender (r' : Render) (s : State) :
  selection_deps_same (current s) r' = false ->
  calls (rerender N r' s) =
  calls s ++
  match selectedDevice r', selectedHierarchy r', token_truthy (token r') with
  | Some d, None, Some tok =>
      [ getDeviceChartDataEnhanced (deviceIdNumber (device_argument d))
          (timeRange r') tok ]
  | None, Some h, Some tok =>
      [ getHierarchyChartDataEnhanced (toNumber N (Hierarchy.id h))
          (timeRange r') tok ]
  | _, _, _ => []
  end.
Proof.
  intros Es.
  unfold rerender, selection_effect, startAutoRefresh, timer_cleanup,
    loadDeviceChartData, loadHierarchyChartData. rewrite Es.
  destruct s; simpl.
  destruct (timer_deps_same _ _), refreshIntervalRef0, (selectedDevice r'),
    (selectedHierarchy r'), (token_truthy (token r')); simpl;
    rewrite ?app_nil_r; reflexivity.
Qed.

Lemma skipn_length_app {A : Type} (l k : list A) :
  skipn (List.length l) (l ++ k) = k.
Proof. induction l; simpl; auto. Qed.

Lemma skipn_length_self {A : Type} (l : list A) :
  skipn (List.length l) l = [].
Proof. induction l; simpl; auto. Qed.

Lemma selection_deps_same_refl (r : Render) : selection_deps_same r r = true.
Proof.
  unfold selection_deps_same.
  rewrite timer_deps_same_refl by reflexivity.
  apply String.eqb_refl.
Qed.

(** Only a render changes the bindings. *)
Lemma current_step (s : State) (e : Event) :
  current (step N s e) = current s \/
  mounted s = true /\
  exists r', step N s e = rerender N r' s /\ current (step N s e) = r'.
Proof.
  destruct e; simpl.
  - destruct (mounted s); auto. right. split; auto.
    eexists; split; [ reflexivity | ]. rewrite current_rerender. auto.
  - destruct (mounted s); auto. right. split; auto.
    eexists; split; [ reflexivity | ]. rewrite current_rerender. auto.
  - left. destruct (find t (timers s)) as [r|]; auto.
    unfold interval_callback, loadDeviceChartData, loadHierarchyChartData.
    destruct s; simpl.
    destruct (selectedDevice r), (selectedHierarchy r),
      (token_truthy (token r)); reflexivity.
  - left. destruct (find q (inflight s)) as [[k|]|]; auto.
    destruct s; simpl. destruct o as [[[] [d|]]|err]; reflexivity.
  - left. destruct (find q (inflight s)) as [[k|]|]; auto.
    destruct s; simpl. destruct o as [[[] [d|]]|err]; reflexivity.
  - left. destruct (mounted s); auto.
    destruct s; simpl. destruct refreshIntervalRef0; reflexivity.
Qed.

(** C1, as amended.  When both props are set or neither is, the selection
    reaction issues no command at all: a render with such bindings adds no
    endpoint call and leaves the device snapshot and the hierarchy
    snapshot as they were. *)
Theorem selection_both_or_neither_keeps_snapshots
  (r' : Render) (s : State) :
  active_kind r' = None ->
  selection_effect N r' = [] /\
  calls (rerender N r' s) = calls s /\
  chartData (rerender N r' s) = chartData s /\
  hierarchyChartData (rerender N r' s) = hierarchyChartData s.
Proof.
  unfold active_kind. intros Hk.
  unfold rerender, selection_effect, startAutoRefresh, timer_cleanup.
  destruct s; simpl.
  destruct (selectedDevice r'), (selectedHierarchy r'); try discriminate;
    destruct (timer_deps_same _ _), (selection_deps_same _ _),
      refreshIntervalRef0; simpl; auto.
Qed.

(** The endpoint calls of a step that changes the selection, the time
    range or the token, by the new selection and token. *)
Lemma issued_on_change (s : State) (e : Event) :
  selection_deps_same (current s) (current (step N s e)) = false ->
  issued N s e =
  match selectedDevice (current (step N s e)),
        selectedHierarchy (current (step N s e)),
        token_truthy (token (current (step N s e))) with
  | Some d, None, Some tok =>
      [ getDeviceChartDataEnhanced (deviceIdNumber (device_argument d))
          (timeRange (current (step N s e))) tok ]
  | None, Some h, Some tok =>
      [ getHierarchyChartDataEnhanced (toNumber N (Hierarchy.id h))
          (timeRange (current (step N s e))) tok ]
  | _, _, _ => []
  end.
Proof.
  intros Es.
  destruct (current_step s e) as [Hc | (Hm & r' & Hs & Hc)].
  { rewrite Hc, selection_deps_same_refl in Es. discriminate. }
  unfold issued. rewrite Hc in *. rewrite Hs.
  rewrite (calls_rerender r' s Es), skipn_length_app. reflexivity.
Qed.

(** C3, as amended.  When a step changes the selection, the time range or
    the token, exactly one prop is set afterwards and the token is present
    and not empty, the step issues exactly one endpoint call, with the
    time range and token now current: to the device endpoint when only
    the device is set, to the hierarchy endpoint when only the hierarchy
    is. *)
Theorem selection_change_issues_one_fetch
  (s : State) (e : Event) (tok : string) :
  selection_deps_same (current s) (current (step N s e)) = false ->
  token_truthy (token (current (step N s e))) = Some tok ->
  (forall d,
      selectedDevice (current (step N s e)) = Some d ->
      selectedHierarchy (current (step N s e)) = None ->
      issued N s e =
      [ getDeviceChartDataEnhanced (deviceIdNumber (device_argument d))
          (timeRange (current (step N s e))) tok ]) /\
  (forall h,
      selectedDevice (current (step N s e)) = None ->
      selectedHierarchy (current (step N s e)) = Some h ->
      issued N s e =
      [ getHierarchyChartDataEnhanced (toNumber N (Hierarchy.id h))
          (timeRange (current (step N s e))) tok ]).
Proof.
  intros Es Ek. rewrite (issued_on_change s e Es), Ek.
  split; intros x Hd Hh; rewrite Hd, Hh; reflexivity.
Qed.


(** *** The two loaders *)

(** C9.  Called while the token is absent, either loader returns at once:
    it issues no command, so no endpoint call is made, the loading flag is
    not set and no snapshot changes. *)
Theorem loaders_return_without_token (r : Render) (v : id_t) :
  token r = None ->
  loadDeviceChartData r v = [] /\
  loadHierarchyChartData N r v = [] /\
  (forall s, run (loadDeviceChartData r v) s = s) /\
  (forall s, run (loadHierarchyChartData N r v) s = s).
Proof.
  intros Ht. unfold loadDeviceChartData, loadHierarchyChartData.
  rewrite Ht. simpl. auto.
Qed.

(** The empty string is no token either. *)
Lemma loaders_return_on_empty_token (r : Render) (v : id_t) :
  token r = Some "" ->
  loadDeviceChartData r v = [] /\ loadHierarchyChartData N r v = [].
Proof.
  intros Ht. unfold loadDeviceChartData, loadHierarchyChartData.
  rewrite Ht. simpl. auto.
Qed.

Lemma view_settled (q : RequestId) (s : State) :
  view (settled q s) = view s.
Proof. reflexivity. Qed.

(** C5.  When a pending device or hierarchy request is rejected, the error
    is written to the console and nothing else happens but the removal of
    the request and the clearing of the loading flag: both snapshots stay
    as they were, and what the children are shown differs from before in
    the loading mark only. *)
Theorem rejected_fetch_keeps_snapshots
  (s : State) (q : RequestId) (error : JS.value) :
  (forall deviceId now,
      find q (inflight s) = Some (resumeDevice deviceId) ->
      let s' := step N s (SettleDevice q (Rejected error) now) in
      s' = run [ console_error "Failed to load device chart data:" error;
                 setIsLoading false ] (settled q s) /\
      chartData s' = chartData s /\
      hierarchyChartData s' = hierarchyChartData s /\
      isLoading s' = false /\
      view s' = loading_cleared (view s) /\
      console s' =
        console s ++ [("Failed to load device chart data:", error)]) /\
  (find q (inflight s) = Some resumeHierarchy ->
   let s' := step N s (SettleHierarchy q (Rejected error)) in
   s' = run [ console_error "Failed to load hierarchy chart data:" error;
              setIsLoading false ] (settled q s) /\
   chartData s' = chartData s /\
   hierarchyChartData s' = hierarchyChartData s /\
   isLoading s' = false /\
   view s' = loading_cleared (view s) /\
   console s' =
     console s ++ [("Failed to load hierarchy chart data:", error)]).
Proof.
  split; [ intros deviceId now Hf | intros Hf ];
    simpl; rewrite Hf; destruct s; simpl; repeat split; reflexivity.
Qed.

(** C10.  When a pending request resolves with [success] false or without
    [data], the snapshots stay as they were and the console gets no line;
    the request is removed and the loading flag cleared, nothing else.  A
    rejection of the same request does write to the console. *)
Theorem unsuccessful_response_is_silent (s : State) (q : RequestId) :
  (forall deviceId (response : Api.response Api.data_t) now,
      find q (inflight s) = Some (resumeDevice deviceId) ->
      Api.success response = false \/ Api.data response = None ->
      let s' := step N s (SettleDevice q (Resolved response) now) in
      s' = run [ setIsLoading false ] (settled q s) /\
      chartData s' = chartData s /\
      hierarchyChartData s' = hierarchyChartData s /\
      console s' = console s /\
      isLoading s' = false /\
      forall error,
        console (step N s (SettleDevice q (Rejected error) now))
        <> console s) /\
  (forall (response : Api.response HierarchyChartData),
      find q (inflight s) = Some resumeHierarchy ->
      Api.success response = false \/ Api.data response = None ->
      let s' := step N s (SettleHierarchy q (Resolved response)) in
      s' = run [ setIsLoading false ] (settled q s) /\
      chartData s' = chartData s /\
      hierarchyChartData s' = hierarchyChartData s /\
      console s' = console s /\
      isLoading s' = false /\
      forall error,
        console (step N s (SettleHierarchy q (Rejected error)))
        <> console s).
Proof.
  assert (Hgrow : forall (l : list (string * JS.value)) x, l ++ [x] <> l).
  { intros l x E. apply (f_equal (@List.length _)) in E.
    rewrite length_app in E. simpl in E. lia. }
  split; [ intros deviceId response now Hf Hbad
         | intros response Hf Hbad ];
    simpl; rewrite Hf; destruct s; simpl in *;
    destruct response as [ok [d|]]; simpl in *;
    destruct ok; simpl;
    try (destruct Hbad; discriminate);
    repeat split; auto.
Qed.

(** C8, as amended.  With a token present the device loader sets the
    loading flag and calls the device endpoint with a number (a string
    identifier goes through [parseInt], a number is passed as it is), the
    time range of its render and the token; when the selection reaction
    calls it that time range is the current one.  On a successful answer the
    snapshot takes seven fields of the device and every field of every
    point unchanged, under the new names; the other three device fields
    are computed: [id] is the answered [deviceId] as a string, or the
    requested identifier as a string when that is absent or empty;
    [created_at] and [company] fall back to the current time and to
    "Unknown" when the answered value is falsy. *)
Theorem device_fetch_call_and_remap
  (r : Render) (deviceId : id_t) (tok : string)
  (data : Api.data_t) (now : string) :
  token_truthy (token r) = Some tok ->
  let t := transformedData deviceId data now in
  let dev := Api.device data in
  loadDeviceChartData r deviceId =
    [ setIsLoading true;
      await (getDeviceChartDataEnhanced
               (match deviceId with
                | IdStr str => JS.parseInt str
                | IdNum n => n
                end) (timeRange r) tok)
            (resumeDevice deviceId) ] /\
  (forall s e d,
      selection_deps_same (current s) (current (step N s e)) = false ->
      token (current (step N s e)) = token r ->
      selectedDevice (current (step N s e)) = Some d ->
      selectedHierarchy (current (step N s e)) = None ->
      issued N s e =
        [ getDeviceChartDataEnhanced (deviceIdNumber (device_argument d))
            (timeRange (current (step N s e))) tok ]) /\
  loadDeviceChartData_resume deviceId
    (Resolved {| Api.success := true; Api.data := Some data |}) now =
    [ setChartData (Some t); setIsLoading false ] /\
  Chart.serial_number (Chart.device t) = Api.deviceSerial dev /\
  Chart.type (Chart.device t) = Api.deviceName dev /\
  Chart.logo (Chart.device t) = Api.deviceLogo dev /\
  Chart.metadata (Chart.device t) = Api.metadata dev /\
  Chart.location (Chart.device t) = Api.wellName dev /\
  Chart.latestData t = Api.latestData data /\
  Chart.timeRange t = Api.timeRange data /\
  Chart.totalDataPoints t = Api.totalDataPoints data /\
  List.length (Chart.chartData t) = List.length (Api.chartData data) /\
  (forall i point,
      nth_error (Api.chartData data) i = Some point ->
      exists p,
        nth_error (Chart.chartData t) i = Some p /\
        Chart.timestamp p = Api.timestamp point /\
        Chart.gfr p = Api.gfr point /\ Chart.gor p = Api.gor point /\
        Chart.gvf p = Api.gvf point /\ Chart.ofr p = Api.ofr point /\
        Chart.wfr p = Api.wfr point /\ Chart.wlr p = Api.wlr point /\
        Chart.pressure p = Api.pressure point /\
        Chart.temperature p = Api.temperature point) /\
  Chart.id (Chart.device t) =
    match JS.opt_toString (Api.deviceId dev) with
    | Some str => if JS.string_truthy str then str else id_toString deviceId
    | None => id_toString deviceId
    end /\
  Chart.created_at (Chart.device t) =
    (if JS.truthy (Api.createdAt dev) then Api.createdAt dev
     else JS.Str now) /\
  Chart.company (Chart.device t) =
    (if JS.truthy (Api.companyName dev) then Api.companyName dev
     else JS.Str "Unknown").
Proof.
  intros Ek t dev. unfold loadDeviceChartData. rewrite Ek.
  repeat split; try reflexivity.
  - intros s e d Es Et Hd Hh.
    rewrite (issued_on_change s e Es), Hd, Hh, Et, Ek. reflexivity.
  - subst t. simpl. apply length_map.
  - intros i point Hp. exists (transform_point point).
    subst t. simpl. rewrite nth_error_map, Hp. simpl.
    repeat split; reflexivity.
Qed.


(** *** The loading flag *)

Lemma rerender_sets_loading (r' : Render) (s : State) :
  skipn (List.length (calls s)) (calls (rerender N r' s)) <> [] ->
  isLoading (rerender N r' s) = true.
Proof.
  destruct (selection_deps_same (current s) r') eqn:Es.
  { rewrite rerender_same by assumption.
    rewrite skipn_length_self; congruence. }
  rewrite (calls_rerender r' s Es), skipn_length_app.
  unfold rerender, selection_effect, startAutoRefresh, timer_cleanup,
    loadDeviceChartData, loadHierarchyChartData. rewrite Es.
  destruct s; simpl.
  destruct (timer_deps_same _ _), refreshIntervalRef0, (selectedDevice r'),
    (selectedHierarchy r'), (token_truthy (token r')); simpl; congruence.
Qed.

(** A step that adds an endpoint call leaves the loading flag set. *)
Lemma issued_sets_loading (s : State) (e : Event) :
  issued N s e <> [] -> isLoading (step N s e) = true.
Proof.
  unfold issued. destruct e; simpl.
  - destruct (mounted s); [ | rewrite skipn_length_self; congruence ].
    apply rerender_sets_loading.
  - destruct (mounted s); [ | rewrite skipn_length_self; congruence ].
    apply rerender_sets_loading.
  - destruct (find t (timers s)) as [r|];
      [ | rewrite skipn_length_self; congruence ].
    unfold interval_callback, loadDeviceChartData, loadHierarchyChartData.
    destruct s; simpl.
    destruct (selectedDevice r), (selectedHierarchy r),
      (token_truthy (token r)); simpl;
      rewrite ?skipn_length_self; congruence.
  - destruct (find q (inflight s)) as [[k|]|];
      try (rewrite skipn_length_self; congruence).
    destruct s; simpl. destruct o as [[[] [d|]]|err]; simpl;
      rewrite skipn_length_self; congruence.
  - destruct (find q (inflight s)) as [[k|]|];
      try (rewrite skipn_length_self; congruence).
    destruct s; simpl. destruct o as [[[] [d|]]|err]; simpl;
      rewrite skipn_length_self; congruence.
  - destruct (mounted s); [ | rewrite skipn_length_self; congruence ].
    destruct s; simpl. destruct refreshIntervalRef0; simpl;
      rewrite skipn_length_self; congruence.
Qed.

(** C4.  In every state a run reaches: the loading flag is down as long as
    no endpoint call has been made (and it starts down); when it is up,
    some request is pending; each loader raises it in the command just
    before its endpoint call, so that a step which makes a call leaves it
    up; and the settlement of a pending request, resolved or rejected,
    leaves it down. *)
Theorem loading_flag_spans_fetches (s : State) :
  reachable N s ->
  (forall d h tok now, isLoading (initial d h tok now) = false) /\
  (calls s = [] -> isLoading s = false) /\
  (isLoading s = true -> inflight s <> []) /\
  (forall r v,
      (loadDeviceChartData r v = [] \/
       exists c k, loadDeviceChartData r v = [setIsLoading true; await c k])
      /\
      (loadHierarchyChartData N r v = [] \/
       exists c k,
         loadHierarchyChartData N r v = [setIsLoading true; await c k])) /\
  (forall e, issued N s e <> [] -> isLoading (step N s e) = true) /\
  (forall q deviceId o now,
      find q (inflight s) = Some (resumeDevice deviceId) ->
      isLoading (step N s (SettleDevice q o now)) = false) /\
  (forall q o,
      find q (inflight s) = Some resumeHierarchy ->
      isLoading (step N s (SettleHierarchy q o)) = false).
Proof.
  intros Hr. destruct (Inv_reachable s Hr) as [_ Hl Hc].
  split; [ reflexivity | ].
  split.
  { intros E. destruct (isLoading s) eqn:El; auto.
    exfalso. apply Hl; auto. }
  split; [ assumption | ].
  split.
  { intros r v. unfold loadDeviceChartData, loadHierarchyChartData.
    destruct (token_truthy (token r)); split;
      solve [ left; reflexivity | right; eexists _, _; reflexivity ]. }
  split; [ apply issued_sets_loading | ].
  split.
  - intros q deviceId o now Hf. simpl. rewrite Hf.
    destruct s; simpl. destruct o as [[[] [d|]]|err]; reflexivity.
  - intros q o Hf. simpl. rewrite Hf.
    destruct s; simpl. destruct o as [[[] [d|]]|err]; reflexivity.
Qed.


(** *** The interval *)

(** A live interval belongs to a mounted component, is the one the ref
    holds, and closes over the current selection and token. *)
Lemma live_timer (s : State) (t : TimerId) (r : Render) :
  reachable N s -> find t (timers s) = Some r ->
  mounted s = true /\ timers s = [(t, r)] /\
  refreshIntervalRef s = Some t /\ t < next_timer s /\
  selectedDevice r = selectedDevice (current s) /\
  selectedHierarchy r = selectedHierarchy (current s) /\
  token r = token (current s).
Proof.
  intros Hr Hf. destruct (Inv_reachable s Hr) as [Ht _ _].
  unfold timer_invariant in Ht. destruct (mounted s).
  - destruct Ht as (t0 & r0 & Ht & Href & Hlt & Hsel).
    rewrite Ht in Hf. simpl in Hf.
    destruct (Nat.eqb t0 t) eqn:E; [ | discriminate ].
    apply Nat.eqb_eq in E. inversion Hf. subst. auto.
  - rewrite Ht in Hf. discriminate.
Qed.

(** C6, as amended.  When a live interval fires in a state a run has
    reached, the component is mounted and the step stamps [lastRefresh]
    with the time of the firing and leaves the props, the token and the
    time range as they were.  When exactly one prop is set, the step runs,
    after the stamp, the loader of that kind on the identifier of the
    current selection and nothing else: with the token present that is
    exactly one call to the endpoint of that kind, with the token absent
    no call.  When both or neither are set the step runs the stamp alone
    and makes no endpoint call.  The loader is the one of the render in
    which the interval was created, which has the current selection and
    token. *)
Theorem interval_refetches_current_selection
  (s : State) (t : TimerId) (r : Render) (now : Date) :
  reachable N s ->
  find t (timers s) = Some r ->
  let s' := step N s (Tick t now) in
  mounted s = true /\
  lastRefresh s' = now /\
  current s' = current s /\
  selectedDevice r = selectedDevice (current s) /\
  selectedHierarchy r = selectedHierarchy (current s) /\
  token r = token (current s) /\
  (forall d,
      selectedDevice (current s) = Some d ->
      selectedHierarchy (current s) = None ->
      s' = run (setLastRefresh now ::
                loadDeviceChartData r (device_argument d)) s /\
      issued N s (Tick t now) =
        match token_truthy (token (current s)) with
        | Some tok =>
            [ getDeviceChartDataEnhanced
                (deviceIdNumber (device_argument d)) (timeRange r) tok ]
        | None => []
        end) /\
  (forall h,
      selectedDevice (current s) = None ->
      selectedHierarchy (current s) = Some h ->
      s' = run (setLastRefresh now ::
                loadHierarchyChartData N r (Hierarchy.id h)) s /\
      issued N s (Tick t now) =
        match token_truthy (token (current s)) with
        | Some tok =>
            [ getHierarchyChartDataEnhanced
                (toNumber N (Hierarchy.id h)) (timeRange r) tok ]
        | None => []
        end) /\
  (active_kind (current s) = None ->
   s' = run [ setLastRefresh now ] s /\ issued N s (Tick t now) = []).
Proof.
  intros Hr Hf s'.
  destruct (live_timer s t r Hr Hf) as (Hm & _ & _ & _ & Hd & Hh & Hk).
  subst s'. unfold issued, active_kind. simpl. rewrite Hf.
  unfold interval_callback, loadDeviceChartData, loadHierarchyChartData.
  rewrite Hd, Hh, Hk.
  split; [ assumption | ].
  destruct s; simpl in *.
  destruct (selectedDevice current0), (selectedHierarchy current0),
    (token_truthy (token current0)); simpl;
    rewrite ?skipn_length_self, ?skipn_length_app;
    repeat split; intros; try discriminate; try congruence.
Qed.


Lemma timers_rerender_same (r' : Render) (s : State) :
  timer_deps_same (current s) r' = true ->
  timers (rerender N r' s) = timers s.
Proof.
  intros Et. unfold rerender, selection_effect, loadDeviceChartData,
    loadHierarchyChartData. rewrite Et.
  destruct s; simpl.
  destruct (selection_deps_same _ _), (selectedDevice r'),
    (selectedHierarchy r'), (token_truthy (token r')); reflexivity.
Qed.

Lemma timers_rerender_changed (r' : Render) (s : State) (t : TimerId)
  (r : Render) :
  timer_deps_same (current s) r' = false ->
  timers s = [(t, r)] -> refreshIntervalRef s = Some t ->
  timers (rerender N r' s) = [(next_timer s, r')].
Proof.
  intros Et Ht Href.
  assert (Es : selection_deps_same (current s) r' = false).
  { unfold selection_deps_same. rewrite Et. reflexivity. }
  unfold rerender, selection_effect, loadDeviceChartData,
    loadHierarchyChartData. rewrite Et, Es.
  destruct s; simpl in *; subst. simpl. rewrite Nat.eqb_refl. simpl.
  destruct (selectedDevice r'), (selectedHierarchy r'),
    (token_truthy (token r')); simpl; rewrite ?Nat.eqb_refl; reflexivity.
Qed.

(** Steps that are not renders leave the intervals alone, unmounting
    apart. *)
Lemma timers_step_other (s : State) (e : Event) :
  match e with Tick _ _ | SettleDevice _ _ _ | SettleHierarchy _ _ => True
          | _ => False end ->
  timers (step N s e) = timers s /\ mounted (step N s e) = mounted s.
Proof.
  destruct e; simpl; intros H; try contradiction.
  - destruct (find t (timers s)) as [r|]; auto.
    unfold interval_callback, loadDeviceChartData, loadHierarchyChartData.
    destruct s; simpl.
    destruct (selectedDevice r), (selectedHierarchy r),
      (token_truthy (token r)); auto.
  - destruct (find q (inflight s)) as [[k|]|]; auto.
    destruct s; simpl. destruct o as [[[] [d|]]|err]; auto.
  - destruct (find q (inflight s)) as [[k|]|]; auto.
    destruct s; simpl. destruct o as [[[] [d|]]|err]; auto.
Qed.

(** Once unmounted and without intervals, the component makes no further
    endpoint call and never has an interval again. *)
Lemma unmounted_step (s : State) (e : Event) :
  mounted s = false -> timers s = [] ->
  mounted (step N s e) = false /\ timers (step N s e) = [] /\
  calls (step N s e) = calls s.
Proof.
  intros Hm Ht. destruct e; simpl; rewrite ?Hm, ?Ht; simpl; auto.
  - destruct (find q (inflight s)) as [[k|]|]; auto.
    destruct s; simpl in *. destruct o as [[[] [d|]]|err]; auto.
  - destruct (find q (inflight s)) as [[k|]|]; auto.
    destruct s; simpl in *. destruct o as [[[] [d|]]|err]; auto.
Qed.

Lemma unmounted_steps (es : list Event) (s : State) :
  mounted s = false -> timers s = [] ->
  mounted (steps N s es) = false /\ timers (steps N s es) = [] /\
  calls (steps N s es) = calls s.
Proof.
  revert s. induction es as [|e es IH]; intros s Hm Ht; simpl; auto.
  destruct (unmounted_step s e Hm Ht) as (Hm' & Ht' & Hc').
  destruct (IH (step N s e) Hm' Ht') as (H1 & H2 & H3).
  repeat split; congruence.
Qed.

(** C7.  In every state a run reaches: a mounted component has exactly
    one interval, the one its ref holds, and an unmounted one has none.
    A step that changes the selection or the token clears that interval
    and leaves exactly one new interval, created for the new bindings; any
    other step except the unmount leaves the intervals as they were.  The
    unmount clears the interval, and whatever happens afterwards creates
    no interval and makes no endpoint call. *)
Theorem timer_lifecycle (s : State) :
  reachable N s ->
  (mounted s = true ->
   exists t r, timers s = [(t, r)] /\ refreshIntervalRef s = Some t) /\
  (mounted s = false -> timers s = []) /\
  (forall e,
      timer_deps_same (current s) (current (step N s e)) = false ->
      timers (step N s e) = [(next_timer s, current (step N s e))] /\
      forall t, find t (timers s) <> None ->
                find t (timers (step N s e)) = None) /\
  (forall e,
      e <> Unmount ->
      timer_deps_same (current s) (current (step N s e)) = true ->
      timers (step N s e) = timers s) /\
  timers (step N s Unmount) = [] /\
  mounted (step N s Unmount) = false /\
  (forall es,
      timers (steps N (step N s Unmount) es) = [] /\
      calls (steps N (step N s Unmount) es) = calls (step N s Unmount)).
Proof.
  intros Hr. pose proof (Inv_reachable s Hr) as [Ht _ _].
  unfold timer_invariant in Ht.
  assert (Hu : timers (step N s Unmount) = [] /\
               mounted (step N s Unmount) = false).
  { simpl. destruct (mounted s) eqn:Hm; auto.
    destruct Ht as (t & r & Ht & Href & _).
    destruct s; simpl in *; subst. simpl. rewrite Nat.eqb_refl. auto. }
  split.
  { intros Hm. rewrite Hm in Ht.
    destruct Ht as (t & r & Ht & Href & _). eauto. }
  split.
  { intros Hm. rewrite Hm in Ht. assumption. }
  split.
  { intros e Et.
    destruct (current_step s e) as [Hc | (Hm & r' & Hs & Hc)].
    { rewrite Hc, timer_deps_same_refl in Et by reflexivity.
      discriminate. }
    rewrite Hm in Ht. destruct Ht as (t & r & Ht & Href & Hlt & _).
    rewrite Hc in *. rewrite Hs.
    rewrite (timers_rerender_changed r' s t r Et Ht Href).
    split; [ reflexivity | ].
    intros t' Hf. rewrite Ht in Hf. simpl in *.
    destruct (Nat.eqb t t') eqn:E; [ | congruence ].
    apply Nat.eqb_eq in E. subst t'.
    destruct (Nat.eqb (next_timer s) t) eqn:E'; auto.
    apply Nat.eqb_eq in E'. lia. }
  split.
  { intros e He Et. destruct e; try congruence.
    - simpl in *. destruct (mounted s); auto.
      rewrite current_rerender in Et. apply timers_rerender_same; auto.
    - simpl in *. destruct (mounted s); auto.
      rewrite current_rerender in Et. apply timers_rerender_same; auto.
    - apply timers_step_other; exact I.
    - apply timers_step_other; exact I.
    - apply timers_step_other; exact I. }
  destruct Hu as [Hu1 Hu2].
  split; [ assumption | ]. split; [ assumption | ].
  intros es. destruct (unmounted_steps es _ Hu2 Hu1) as (_ & H2 & H3). auto.
Qed.


(** *** The two snapshot slots *)

Lemma calm_reachable_reachable (s : State) :
  calm_reachable N s -> reachable N s.
Proof. induction 1; constructor; assumption. Qed.

Lemma forallb_drop {A : Type} (f : nat * A -> bool) (q : nat)
  (l : list (nat * A)) :
  forallb f l = true -> forallb f (drop q l) = true.
Proof.
  unfold drop. induction l as [|p l IH]; simpl; auto.
  intros H. apply andb_true_iff in H. destruct H as [Hp Hl].
  destruct (negb (Nat.eqb (fst p) q)); simpl; auto.
  rewrite Hp. auto.
Qed.

Lemma forallb_find {A : Type} (g : A -> bool) (q : nat) (a : A)
  (l : list (nat * A)) :
  find q l = Some a -> forallb (fun p => g (snd p)) l = true -> g a = true.
Proof.
  induction l as [|[k b] l IH]; simpl; [ discriminate | ].
  intros Hf H. apply andb_true_iff in H. destruct H as [Hb Hl].
  destruct (Nat.eqb k q); auto. inversion Hf; subst; auto.
Qed.

Lemma Separated_at_most_one (s : State) :
  Separated s -> at_most_one_snapshot s.
Proof.
  unfold Separated, clear_of, snapshot_empty, at_most_one_snapshot.
  intros [[[H _] _] | [[H _] _]].
  - right. destruct (hierarchyChartData s); [ discriminate | reflexivity ].
  - left. destruct (chartData s); [ discriminate | reflexivity ].
Qed.

Lemma Separated_mount d h tok now : Separated (mount N d h tok now).
Proof.
  unfold Separated, clear_of, mount, selection_effect, loadDeviceChartData,
    loadHierarchyChartData, active_kind, none_inflight; simpl.
  destruct d, h, (token_truthy tok); simpl;
    solve [ left; repeat split; congruence
          | right; repeat split; congruence ].
Qed.

(** How a render whose first effect runs moves the slots and the pending
    requests, by the kind of the new selection. *)
Lemma rerender_one_kind (r' : Render) (s : State) (k : Kind) :
  selection_deps_same (current s) r' = false ->
  active_kind r' = Some k ->
  snapshot_empty (other k) (rerender N r' s) = true /\
  none_inflight (other k) (rerender N r' s) = none_inflight (other k) s.
Proof.
  intros Es. unfold active_kind, none_inflight, snapshot_empty, rerender,
    selection_effect, startAutoRefresh, timer_cleanup, loadDeviceChartData,
    loadHierarchyChartData.
  rewrite Es. destruct s; simpl.
  destruct (timer_deps_same _ _), refreshIntervalRef0, (selectedDevice r'),
    (selectedHierarchy r'), (token_truthy (token r')); simpl;
    intros Hk; inversion Hk; subst; simpl;
    rewrite ?forallb_app; simpl; rewrite ?andb_true_r; auto.
Qed.

Lemma rerender_no_kind (r' : Render) (s : State) (k : Kind) :
  active_kind r' = None ->
  snapshot_empty k (rerender N r' s) = snapshot_empty k s /\
  none_inflight k (rerender N r' s) = none_inflight k s.
Proof.
  unfold active_kind, none_inflight, snapshot_empty, rerender,
    selection_effect, startAutoRefresh, timer_cleanup.
  destruct s; simpl.
  destruct (timer_deps_same _ _), (selection_deps_same _ _),
    refreshIntervalRef0, (selectedDevice r'), (selectedHierarchy r');
    simpl; intros Hk; try discriminate; destruct k; auto.
Qed.

Lemma Separated_rerender (r' : Render) (s : State) :
  quiet s r' = true -> Separated s -> Separated (rerender N r' s).
Proof.
  intros Hq HS.
  destruct (selection_deps_same (current s) r') eqn:Es.
  { rewrite rerender_same; assumption. }
  unfold quiet in Hq. rewrite Es in Hq. simpl in Hq.
  unfold Separated, clear_of in *. rewrite current_rerender.
  destruct (active_kind r') as [k|] eqn:Ek.
  - destruct (rerender_one_kind r' s k Es Ek) as [H1 H2].
    rewrite Hq in H2.
    destruct k; simpl in *; [ left | right ];
      repeat split; auto; discriminate.
  - destruct HS as [[[H1 H2] _] | [[H1 H2] _]]; [ left | right ].
    + destruct (rerender_no_kind r' s HierarchyKind Ek) as [E1 E2].
      rewrite E1, E2. repeat split; auto; discriminate.
    + destruct (rerender_no_kind r' s DeviceKind Ek) as [E1 E2].
      rewrite E1, E2. repeat split; auto; discriminate.
Qed.

(** The interval callback for a selection of kind [k] leaves the slots
    alone and starts no request of the other kind. *)
Lemma callback_one_kind (r : Render) (now : Date) (s : State) (k : Kind) :
  active_kind r = Some k ->
  let s' := run (interval_callback N r now) s in
  current s' = current s /\
  snapshot_empty (other k) s' = snapshot_empty (other k) s /\
  none_inflight (other k) s' = none_inflight (other k) s.
Proof.
  unfold active_kind, none_inflight, snapshot_empty, interval_callback,
    loadDeviceChartData, loadHierarchyChartData.
  destruct s; simpl.
  destruct (selectedDevice r), (selectedHierarchy r),
    (token_truthy (token r)); simpl;
    intros Hk; inversion Hk; subst; simpl;
    rewrite ?forallb_app; simpl; rewrite ?andb_true_r; auto.
Qed.

Lemma callback_no_kind (r : Render) (now : Date) (s : State) (k : Kind) :
  active_kind r = None ->
  let s' := run (interval_callback N r now) s in
  current s' = current s /\
  snapshot_empty k s' = snapshot_empty k s /\
  none_inflight k s' = none_inflight k s.
Proof.
  unfold active_kind, none_inflight, snapshot_empty, interval_callback.
  destruct s; simpl.
  destruct (selectedDevice r), (selectedHierarchy r); simpl;
    intros Hk; try discriminate; destruct k; auto.
Qed.

Lemma active_kind_ext (r r' : Render) :
  selectedDevice r = selectedDevice r' ->
  selectedHierarchy r = selectedHierarchy r' ->
  active_kind r = active_kind r'.
Proof. unfold active_kind. intros -> ->. reflexivity. Qed.

Lemma Separated_tick (t : TimerId) (now : Date) (s : State) :
  reachable N s -> Separated s -> Separated (step N s (Tick t now)).
Proof.
  intros Hr HS. unfold step.
  destruct (find t (timers s)) as [r|] eqn:Hf; [ | assumption ].
  destruct (live_timer s t r Hr Hf) as (_ & _ & _ & _ & Hd & Hh & _).
  pose proof (active_kind_ext r (current s) Hd Hh) as Hk.
  unfold Separated, clear_of in *.
  destruct (active_kind r) as [k|] eqn:Ek.
  - destruct (callback_one_kind r now s k Ek) as (Hc & E1 & E2).
    rewrite Hc, <- Hk.
    destruct k; cbn [other] in *;
      destruct HS as [[[H1 H2] H3] | [[H1 H2] H3]];
      try congruence; [ left | right ];
      rewrite E1, E2; repeat split; auto; discriminate.
  - destruct HS as [[[H1 H2] H3] | [[H1 H2] H3]]; [ left | right ].
    + destruct (callback_no_kind r now s HierarchyKind Ek) as (Hc & E1 & E2).
      rewrite Hc, E1, E2. auto.
    + destruct (callback_no_kind r now s DeviceKind Ek) as (Hc & E1 & E2).
      rewrite Hc, E1, E2. auto.
Qed.

Lemma Separated_settle_device q o now (s : State) :
  Separated s -> Separated (step N s (SettleDevice q o now)).
Proof.
  intros HS. simpl.
  destruct (find q (inflight s)) as [[deviceId|]|] eqn:Hf; try assumption.
  unfold Separated, clear_of in *.
  destruct HS as [[[H1 H2] H3] | [[H1 H2] H3]].
  - left. revert H1 H2 H3.
    unfold none_inflight, snapshot_empty. destruct s; simpl.
    intros H1 H2 H3.
    destruct o as [[[] [d|]]|err]; simpl;
      repeat split; auto using forallb_drop.
  - exfalso. unfold none_inflight in H2.
    pose proof (forallb_find
                  (fun c => negb (kind_eqb DeviceKind (continuation_kind c)))
                  q _ _ Hf H2) as Hbad.
    discriminate.
Qed.

Lemma Separated_settle_hierarchy q o (s : State) :
  Separated s -> Separated (step N s (SettleHierarchy q o)).
Proof.
  intros HS. simpl.
  destruct (find q (inflight s)) as [[deviceId|]|] eqn:Hf; try assumption.
  unfold Separated, clear_of in *.
  destruct HS as [[[H1 H2] H3] | [[H1 H2] H3]].
  - exfalso. unfold none_inflight in H2.
    pose proof (forallb_find
                  (fun c =>
                     negb (kind_eqb HierarchyKind (continuation_kind c)))
                  q _ _ Hf H2) as Hbad.
    discriminate.
  - right. revert H1 H2 H3.
    unfold none_inflight, snapshot_empty. destruct s; simpl.
    intros H1 H2 H3.
    destruct o as [[[] [d|]]|err]; simpl;
      repeat split; auto using forallb_drop.
Qed.

Lemma Separated_unmount (s : State) :
  Separated s -> Separated (step N s Unmount).
Proof.
  intros HS. simpl. destruct (mounted s); [ | assumption ].
  revert HS. unfold Separated, clear_of, none_inflight, snapshot_empty.
  destruct s; simpl. destruct refreshIntervalRef0; simpl; auto.
Qed.

Lemma Separated_calm (s : State) : calm_reachable N s -> Separated s.
Proof.
  induction 1 as [d h tok now | s e Hs IH Hc].
  - apply Separated_mount.
  - pose proof (calm_reachable_reachable s Hs) as Hr.
    destruct e; simpl in Hc.
    + simpl. destruct (mounted s); auto using Separated_rerender.
    + simpl. destruct (mounted s); auto using Separated_rerender.
    + apply Separated_tick; assumption.
    + apply Separated_settle_device; assumption.
    + apply Separated_settle_hierarchy; assumption.
    + apply Separated_unmount; assumption.
Qed.


Lemma chartData_settle_hierarchy (s : State) q o :
  chartData (step N s (SettleHierarchy q o)) = chartData s.
Proof.
  simpl. destruct (find q (inflight s)) as [[k|]|]; auto.
  destruct s; simpl. destruct o as [[[] [d|]]|err]; reflexivity.
Qed.

Lemma snapshot_empty_device (s : State) :
  snapshot_empty DeviceKind s = true -> chartData s = None.
Proof. simpl. destruct (chartData s); congruence. Qed.

Lemma snapshot_empty_hierarchy (s : State) :
  snapshot_empty HierarchyKind s = true -> hierarchyChartData s = None.
Proof. simpl. destruct (hierarchyChartData s); congruence. Qed.

(** C2, as amended.  A step that changes the selection, the time range or
    the token and leaves exactly one prop set clears the snapshot of the
    other kind in that very step.  In particular a switch from a device
    selection to a hierarchy selection leaves the device snapshot null at
    once, and it stays null however the hierarchy request settles.  At
    most one of the two slots is populated in every state of a run in
    which, each time the selection reaction runs for exactly one kind, no
    request of the other kind is still pending. *)
Theorem other_snapshot_cleared_on_switch (s : State) :
  (calm_reachable N s -> at_most_one_snapshot s) /\
  (forall e h,
      selection_deps_same (current s) (current (step N s e)) = false ->
      selectedDevice (current (step N s e)) = None ->
      selectedHierarchy (current (step N s e)) = Some h ->
      chartData (step N s e) = None) /\
  (forall e d,
      selection_deps_same (current s) (current (step N s e)) = false ->
      selectedDevice (current (step N s e)) = Some d ->
      selectedHierarchy (current (step N s e)) = None ->
      hierarchyChartData (step N s e) = None) /\
  (forall d h tok,
      mounted s = true ->
      selectedDevice (current s) = Some d ->
      selectedHierarchy (current s) = None ->
      let s' := step N s (Props None (Some h) tok) in
      chartData s' = None /\
      forall q o, chartData (step N s' (SettleHierarchy q o)) = None).
Proof.
  assert (Hswitch : forall e k,
             selection_deps_same (current s) (current (step N s e)) = false ->
             active_kind (current (step N s e)) = Some k ->
             snapshot_empty (other k) (step N s e) = true).
  { intros e k Es Ek.
    destruct (current_step s e) as [Hc | (Hm & r' & Hs & Hc)].
    { rewrite Hc, selection_deps_same_refl in Es. discriminate. }
    rewrite Hc in *. rewrite Hs.
    apply (rerender_one_kind r' s k Es Ek). }
  split; [ intros Hc; apply Separated_at_most_one, Separated_calm, Hc | ].
  split.
  { intros e h Es Hd Hh. apply snapshot_empty_device.
    apply (Hswitch e HierarchyKind Es).
    unfold active_kind. rewrite Hd, Hh. reflexivity. }
  split.
  { intros e d Es Hd Hh. apply snapshot_empty_hierarchy.
    apply (Hswitch e DeviceKind Es).
    unfold active_kind. rewrite Hd, Hh. reflexivity. }
  intros d h tok Hm Hd Hh s'.
  assert (Hs' : chartData s' = None).
  { apply snapshot_empty_device. subst s'.
    assert (Hc : current (step N s (Props None (Some h) tok)) =
                 with_props (current s) None (Some h) tok).
    { simpl. rewrite Hm. apply current_rerender. }
    apply (Hswitch _ HierarchyKind).
    - rewrite Hc. unfold selection_deps_same, timer_deps_same. simpl.
      destruct (device_eq_dec _ _) as [E|E]; [ congruence | reflexivity ].
    - rewrite Hc. reflexivity. }
  split; [ assumption | ].
  intros q o. rewrite chartData_settle_hierarchy. assumption.
Qed.

End Properties.

(** ** Concrete runs *)

Example parseInt_42 : JS.parseInt "  42px" = JS.Num 42.
Proof. reflexivity. Qed.

Example parseInt_neg : JS.parseInt "-7" = JS.Num (-7).
Proof. reflexivity. Qed.

Example parseInt_hex : JS.parseInt "0x1f" = JS.Num 31.
Proof. reflexivity. Qed.

Example parseInt_nan : JS.parseInt "abc" = JS.NaN.
Proof. reflexivity. Qed.

Example number_toString_samples :
  JS.number_toString (JS.Num 12) = "12" /\
  JS.number_toString (JS.Num (-3)) = "-3" /\
  JS.number_toString (JS.Num 0) = "0".
Proof. repeat split; reflexivity. Qed.

Example device_mounted_calls :
  calls device_mounted = [getDeviceChartDataEnhanced (JS.Num 7) "day" "tok"] /\
  inflight device_mounted = [(1, resumeDevice (IdNum (JS.Num 7)))] /\
  timers device_mounted = [(1, current device_mounted)] /\
  isLoading device_mounted = true.
Proof. repeat split; reflexivity. Qed.

(** The interval is not recreated when the time range changes, so its
    callback keeps calling the endpoint with the time range of the render
    that created it: after a click on "week" the selection reaction asks
    for "week", the next firing for "day". *)
Example interval_keeps_the_time_range_of_its_render :
  timeRange (current (step DecimalToNumber device_mounted (Click Week)))
  = "week" /\
  issued DecimalToNumber device_mounted (Click Week)
  = [getDeviceChartDataEnhanced (JS.Num 7) "week" "tok"] /\
  issued DecimalToNumber
    (step DecimalToNumber device_mounted (Click Week)) (Tick 1 6000%Z)
  = [getDeviceChartDataEnhanced (JS.Num 7) "day" "tok"].
Proof. repeat split; reflexivity. Qed.

(** C1 as stated fails: with a device snapshot loaded, deselecting the
    device runs the selection reaction with neither prop set, and the
    device snapshot is still there afterwards. *)
Lemma selection_neither_leaves_snapshot :
  selection_deps_same (current device_loaded)
    (current (step DecimalToNumber device_loaded
                (Props None None (Some "tok")))) = false /\
  active_kind
    (current (step DecimalToNumber device_loaded
                (Props None None (Some "tok")))) = None /\
  chartData (step DecimalToNumber device_loaded
               (Props None None (Some "tok"))) <> None.
Proof. repeat split; try reflexivity. vm_compute. discriminate. Qed.

Lemma selection_both_or_neither_keeps_snapshots_witness :
  active_kind (with_props (current device_loaded) None None (Some "tok"))
  = None /\
  chartData
    (rerender DecimalToNumber
       (with_props (current device_loaded) None None (Some "tok"))
       device_loaded)
  = chartData device_loaded.
Proof.
  split; [ reflexivity | ].
  apply (selection_both_or_neither_keeps_snapshots DecimalToNumber
           (with_props (current device_loaded) None None (Some "tok"))
           device_loaded).
  reflexivity.
Defined.

(** C2 as stated fails: a device answer that arrives after the switch to
    a hierarchy selection fills the device slot while the hierarchy slot
    is filled too. *)
Lemma late_answer_fills_both_slots :
  reachable DecimalToNumber late_device_answer /\
  chartData late_device_answer <> None /\
  hierarchyChartData late_device_answer <> None.
Proof.
  split; [ | split; vm_compute; discriminate ].
  apply reachable_steps, reach_mount.
Qed.

Lemma other_snapshot_cleared_on_switch_witness :
  calm_reachable DecimalToNumber device_loaded /\
  at_most_one_snapshot device_loaded /\
  chartData (step DecimalToNumber device_loaded
               (Props None (Some region3) (Some "tok"))) = None.
Proof.
  assert (H : calm_reachable DecimalToNumber device_loaded).
  { unfold device_loaded. apply calm_step; [ apply calm_mount | reflexivity ]. }
  split; [ exact H | ].
  split.
  - apply (proj1 (other_snapshot_cleared_on_switch DecimalToNumber
                    device_loaded) H).
  - apply (proj1 (proj2 (proj2 (proj2
             (other_snapshot_cleared_on_switch DecimalToNumber
                device_loaded))) device7 region3 (Some "tok")
             eq_refl eq_refl eq_refl)).
Defined.

(** C3 as stated fails: signing out while a device is selected changes
    the token, exactly one prop is set, and no endpoint call is made. *)
Lemma token_removed_issues_no_fetch :
  selection_deps_same (current device_mounted)
    (current (step DecimalToNumber device_mounted
                (Props (Some device7) None None))) = false /\
  active_kind
    (current (step DecimalToNumber device_mounted
                (Props (Some device7) None None))) = Some DeviceKind /\
  issued DecimalToNumber device_mounted (Props (Some device7) None None) = [].
Proof. repeat split; reflexivity. Qed.

Lemma selection_change_issues_one_fetch_witness :
  issued DecimalToNumber device_mounted (Click Week)
  = [getDeviceChartDataEnhanced (JS.Num 7) "week" "tok"] /\
  issued DecimalToNumber device_mounted
    (Props None (Some region3) (Some "tok"))
  = [getHierarchyChartDataEnhanced (JS.Num 3) "day" "tok"].
Proof.
  split.
  - apply (proj1 (selection_change_issues_one_fetch DecimalToNumber
                    device_mounted (Click Week) "tok" eq_refl eq_refl)
             device7); reflexivity.
  - apply (proj2 (selection_change_issues_one_fetch DecimalToNumber
                    device_mounted (Props None (Some region3) (Some "tok"))
                    "tok" eq_refl eq_refl)
             region3); reflexivity.
Defined.

Lemma loading_flag_spans_fetches_witness :
  reachable DecimalToNumber device_mounted /\
  isLoading device_mounted = true /\
  inflight device_mounted <> [] /\
  isLoading (step DecimalToNumber device_mounted
               (SettleDevice 1 (Rejected (JS.Str "timeout")) iso_now))
  = false.
Proof.
  assert (H : reachable DecimalToNumber device_mounted)
    by apply reach_mount.
  pose proof (loading_flag_spans_fetches DecimalToNumber device_mounted H)
    as (_ & _ & Hl & _ & _ & Hs & _).
  split; [ exact H | ].
  split; [ reflexivity | ].
  split; [ apply Hl; reflexivity | ].
  apply (Hs 1 (IdNum (JS.Num 7))). reflexivity.
Defined.

Lemma rejected_fetch_keeps_snapshots_witness :
  find 1 (inflight device_mounted) = Some (resumeDevice (IdNum (JS.Num 7))) /\
  chartData (step DecimalToNumber device_mounted
               (SettleDevice 1 (Rejected (JS.Str "timeout")) iso_now))
  = chartData device_mounted /\
  console (step DecimalToNumber device_mounted
             (SettleDevice 1 (Rejected (JS.Str "timeout")) iso_now))
  = [("Failed to load device chart data:", JS.Str "timeout")].
Proof.
  pose proof (proj1 (rejected_fetch_keeps_snapshots DecimalToNumber
                       device_mounted 1 (JS.Str "timeout"))
                (IdNum (JS.Num 7)) iso_now eq_refl)
    as (_ & Hc & _ & _ & _ & Hl).
  split; [ reflexivity | ].
  split; [ exact Hc | exact Hl ].
Defined.

(** C6 as stated fails: with a device selected and nobody signed in, a
    firing of the live interval stamps the time and makes no endpoint
    call. *)
Lemma interval_without_token_issues_no_fetch :
  reachable DecimalToNumber signed_out_mounted /\
  find 1 (timers signed_out_mounted) = Some (current signed_out_mounted) /\
  active_kind (current signed_out_mounted) = Some DeviceKind /\
  lastRefresh (step DecimalToNumber signed_out_mounted (Tick 1 6000%Z))
  = 6000%Z /\
  issued DecimalToNumber signed_out_mounted (Tick 1 6000%Z) = [].
Proof. split; [ apply reach_mount | repeat split; reflexivity ]. Qed.

Lemma interval_refetches_current_selection_witness :
  reachable DecimalToNumber device_loaded /\
  find 1 (timers device_loaded) = Some (current device_mounted) /\
  lastRefresh (step DecimalToNumber device_loaded (Tick 1 6000%Z)) = 6000%Z /\
  issued DecimalToNumber device_loaded (Tick 1 6000%Z)
  = [getDeviceChartDataEnhanced (JS.Num 7) "day" "tok"].
Proof.
  assert (H : reachable DecimalToNumber device_loaded).
  { unfold device_loaded. apply reach_step, reach_mount. }
  pose proof (interval_refetches_current_selection DecimalToNumber
                device_loaded 1 (current device_mounted) 6000%Z H eq_refl)
    as (_ & Hl & _ & _ & _ & _ & Hd & _).
  split; [ exact H | ].
  split; [ reflexivity | ].
  split; [ exact Hl | ].
  apply (Hd device7 eq_refl eq_refl).
Defined.

Lemma timer_lifecycle_witness :
  reachable DecimalToNumber device_mounted /\
  timers (step DecimalToNumber device_mounted
            (Props None (Some region3) (Some "tok")))
  = [(2, with_props (current device_mounted) None (Some region3)
           (Some "tok"))] /\
  timers (step DecimalToNumber device_mounted (Click Week))
  = timers device_mounted /\
  timers (step DecimalToNumber device_mounted Unmount) = [].
Proof.
  assert (H : reachable DecimalToNumber device_mounted)
    by apply reach_mount.
  pose proof (timer_lifecycle DecimalToNumber device_mounted H)
    as (_ & _ & Hnew & Hkeep & Hun & _).
  split; [ exact H | ].
  split; [ apply (Hnew (Props None (Some region3) (Some "tok")));
           reflexivity | ].
  split; [ apply (Hkeep (Click Week)); [ discriminate | reflexivity ] | ].
  exact Hun.
Defined.

(** C8 as stated fails: the answer carries no company name and the
    snapshot's [company] is not that value but the string "Unknown". *)
Lemma company_is_not_a_rename :
  Api.companyName (Api.device sample_data) = JS.Undefined /\
  Chart.company
    (Chart.device (transformedData (IdNum (JS.Num 7)) sample_data iso_now))
  = JS.Str "Unknown" /\
  Chart.company
    (Chart.device (transformedData (IdNum (JS.Num 7)) sample_data iso_now))
  <> Api.companyName (Api.device sample_data).
Proof. repeat split; try reflexivity. discriminate. Qed.

Lemma device_fetch_call_and_remap_witness :
  token_truthy (token (current device_mounted)) = Some "tok" /\
  loadDeviceChartData (current device_mounted) (IdStr "0x10")
  = [ setIsLoading true;
      await (getDeviceChartDataEnhanced (JS.Num 16) "day" "tok")
            (resumeDevice (IdStr "0x10")) ] /\
  Chart.serial_number
    (Chart.device (transformedData (IdStr "0x10") sample_data iso_now))
  = JS.Str "SN-7".
Proof.
  pose proof (device_fetch_call_and_remap DecimalToNumber
                (current device_mounted) (IdStr "0x10") "tok" sample_data
                iso_now eq_refl)
    as (Hcall & _ & _ & Hserial & _).
  split; [ reflexivity | ].
  split; [ exact Hcall | exact Hserial ].
Defined.

Lemma loaders_return_without_token_witness :
  token (with_props (current device_mounted) (Some device7) None None)
  = None /\
  loadDeviceChartData
    (with_props (current device_mounted) (Some device7) None None)
    (IdNum (JS.Num 7)) = [].
Proof.
  split; [ reflexivity | ].
  apply (loaders_return_without_token DecimalToNumber
           (with_props (current device_mounted) (Some device7) None None)
           (IdNum (JS.Num 7))).
  reflexivity.
Defined.

Lemma unsuccessful_response_is_silent_witness :
  find 1 (inflight device_mounted) = Some (resumeDevice (IdNum (JS.Num 7))) /\
  console (step DecimalToNumber device_mounted
             (SettleDevice 1
                (Resolved {| Api.success := false; Api.data := None |})
                iso_now))
  = console device_mounted /\
  isLoading (step DecimalToNumber device_mounted
               (SettleDevice 1
                  (Resolved {| Api.success := false; Api.data := None |})
                  iso_now))
  = false.
Proof.
  pose proof (proj1 (unsuccessful_response_is_silent DecimalToNumber
                       device_mounted 1)
                (IdNum (JS.Num 7))
                {| Api.success := false; Api.data := None |} iso_now
                eq_refl (or_introl eq_refl))
    as (_ & _ & _ & Hc & Hl & _).
  split; [ reflexivity | ].
  split; [ exact Hc | exact Hl ].
Defined.

(** ** Further properties *)

(** *** Identifiers as strings and back *)








Lemma number_toString_truthy (n : JS.number) :
  JS.string_truthy (JS.number_toString n) = true.
Proof.
  destruct n as [z|]; [ | reflexivity ].
  unfold JS.number_toString, Z.to_int. destruct z as [|p|p].
  - reflexivity.
  - cbn [NilZero.string_of_int]. unfold NilZero.string_of_uint.
    pose proof (DecimalPos.Unsigned.to_uint_nonnil p) as Hn.
    destruct (Pos.to_uint p); [ congruence | reflexivity .. ].
  - reflexivity.
Qed.





(** X4.  The snapshot never carries a falsy company, its [created_at] is
    falsy only if the answer's is and the clock string is empty, and its
    [id] is empty only if the requested identifier is the empty string. *)
Theorem snapshot_fields_are_filled
  (deviceId : id_t) (data : Api.data_t) (now : string) :
  let t := transformedData deviceId data now in
  JS.truthy (Chart.company (Chart.device t)) = true /\
  (JS.truthy (Chart.created_at (Chart.device t)) = false ->
   JS.truthy (Api.createdAt (Api.device data)) = false /\ now = EmptyString)
  /\
  (Chart.id (Chart.device t) = EmptyString -> deviceId = IdStr EmptyString).
Proof.
  cbn [transformedData Chart.device Chart.company Chart.created_at Chart.id].
  unfold JS.or_else.
  split; [ | split ].
  - destruct (JS.truthy (Api.companyName (Api.device data))) eqn:E;
      [ exact E | reflexivity ].
  - destruct (JS.truthy (Api.createdAt (Api.device data))) eqn:E.
    + intros E'. congruence.
    + cbn [JS.truthy]. destruct now; [ auto | discriminate ].
  - assert (Hreq : id_toString deviceId = EmptyString ->
                   deviceId = IdStr EmptyString).
    { destruct deviceId as [n|str]; cbn [id_toString].
      - intros E. pose proof (number_toString_truthy n) as Ht.
        rewrite E in Ht. discriminate.
      - intros ->. reflexivity. }
    destruct (JS.opt_toString (Api.deviceId (Api.device data))) as [str|];
      [ | exact Hreq ].
    destruct (JS.string_truthy str) eqn:E; [ | exact Hreq ].
    intros ->. discriminate.
Qed.

(** *** Display mode *)

(** X5.  The two display flags are never both set.  A selected device
    always means fractions; nothing selected means top regions; and
    neither flag is set exactly for a hierarchy node, without a device,
    whose level is none of Well, Region, Area and Field and whose id is
    not its name. *)
Theorem display_flags_exclude_each_other (r : Render) :
  shouldShowFractions r && shouldShowTopRegions r = false /\
  (selectedDevice r <> None ->
   shouldShowFractions r = true /\ shouldShowTopRegions r = false) /\
  (selectedDevice r = None -> selectedHierarchy r = None ->
   shouldShowFractions r = false /\ shouldShowTopRegions r = true) /\
  (shouldShowFractions r = false /\ shouldShowTopRegions r = false <->
   selectedDevice r = None /\
   exists h,
     selectedHierarchy r = Some h /\
     Hierarchy.level h <> "Well" /\ Hierarchy.level h <> "Region" /\
     Hierarchy.level h <> "Area" /\ Hierarchy.level h <> "Field" /\
     Hierarchy.id h <> IdStr (Hierarchy.name h)).
Proof.
  unfold shouldShowTopRegions, shouldShowFractions.
  split; [ | split; [ | split ] ].
  - destruct (selectedHierarchy r) as [h|], (selectedDevice r);
      try match goal with
          | |- context [String.eqb ?a "Well"] =>
              destruct (String.eqb a "Well")
          end; reflexivity.
  - intros Hd. destruct (selectedDevice r); [ | congruence ].
    rewrite orb_true_r. auto.
  - intros -> ->. auto.
  - assert (Hid : forall v s, id_is_string v s = false <-> v <> IdStr s).
    { intros [n|s'] s; simpl.
      - split; [ discriminate | reflexivity ].
      - rewrite String.eqb_neq. split; congruence. }
    destruct (selectedDevice r) as [d|].
    { rewrite orb_true_r. simpl. split.
      - intros [H _]; discriminate.
      - intros [H _]; discriminate. }
    destruct (selectedHierarchy r) as [h|].
    + rewrite orb_false_r.
      destruct (String.eqb (Hierarchy.level h) "Well") eqn:Ew.
      { split; [ intros [H _]; discriminate | ].
        intros (_ & h' & Hh & Hw & _). inversion Hh; subst h'.
        apply String.eqb_eq in Ew. contradiction. }
      simpl. rewrite !orb_false_iff, !String.eqb_neq, Hid.
      apply String.eqb_neq in Ew. split.
      * intros (_ & ((Hr & Ha) & Hf) & Hi). split; auto.
        exists h. repeat split; auto.
      * intros (_ & h' & Hh & Hw & Hr & Ha & Hf & Hi).
        inversion Hh; subst h'. auto.
    + simpl. split.
      * intros [_ H]; discriminate.
      * intros (_ & h & Hh & _). discriminate.
Qed.

Section More.

Variable N : string -> JS.number.

(** *** The first render *)

(** The state after the first render and its effects. *)
Lemma mount_effects
  (d : option Device.t) (h : option Hierarchy.t) (tok : option string)
  (now : Date) :
  let s := mount N d h tok now in
  calls s =
    match d, h, token_truthy tok with
    | Some dev, None, Some t =>
        [ getDeviceChartDataEnhanced (deviceIdNumber (device_argument dev))
            "day" t ]
    | None, Some hi, Some t =>
        [ getHierarchyChartDataEnhanced (toNumber N (Hierarchy.id hi))
            "day" t ]
    | _, _, _ => []
    end /\
  isLoading s = negb (Nat.eqb (List.length (calls s)) 0) /\
  List.length (inflight s) = List.length (calls s) /\
  chartData s = None /\ hierarchyChartData s = None /\
  timers s = [(1, current s)] /\ refreshIntervalRef s = Some 1 /\
  current s = {| selectedDevice := d; selectedHierarchy := h;
                 token := tok; timeRange := "day" |} /\
  lastRefresh s = now /\ console s = [].
Proof.
  unfold mount, selection_effect, loadDeviceChartData,
    loadHierarchyChartData. simpl.
  destruct d, h, (token_truthy tok); simpl; repeat split; reflexivity.
Qed.

(** X6.  The first render, with its effects, makes the one endpoint call
    of the selection, with the time range "day", when exactly one prop is
    set and the token is present, and no call otherwise; the loading flag
    is up exactly when a call was made, both snapshots are empty, and one
    interval, numbered 1, exists for the first render's bindings. *)
Theorem mount_runs_the_first_fetch
  (d : option Device.t) (h : option Hierarchy.t) (tok : option string)
  (now : Date) :
  let s := mount N d h tok now in
  calls s =
    match d, h, token_truthy tok with
    | Some dev, None, Some t =>
        [ getDeviceChartDataEnhanced (deviceIdNumber (device_argument dev))
            "day" t ]
    | None, Some hi, Some t =>
        [ getHierarchyChartDataEnhanced (toNumber N (Hierarchy.id hi))
            "day" t ]
    | _, _, _ => []
    end /\
  isLoading s = negb (Nat.eqb (List.length (calls s)) 0) /\
  List.length (inflight s) = List.length (calls s) /\
  chartData s = None /\ hierarchyChartData s = None /\
  timers s = [(1, current s)] /\ refreshIntervalRef s = Some 1 /\
  current s = {| selectedDevice := d; selectedHierarchy := h;
                 token := tok; timeRange := "day" |} /\
  lastRefresh s = now /\ console s = [].
Proof. exact (mount_effects d h tok now). Qed.

(** X7.  [deviceId || id]: a device whose [deviceId] is missing, 0, NaN
    or the empty string is fetched by its [id]; any other [deviceId] is
    used as it is. *)
Theorem falsy_deviceId_falls_back_to_id
  (dev : Device.t) (tok : option string) (t : string) (now : Date) :
  token_truthy tok = Some t ->
  (Device.deviceId dev = None \/
   Device.deviceId dev = Some (IdNum (JS.Num 0)) \/
   Device.deviceId dev = Some (IdNum JS.NaN) \/
   Device.deviceId dev = Some (IdStr EmptyString) ->
   calls (mount N (Some dev) None tok now) =
   [ getDeviceChartDataEnhanced (deviceIdNumber (Device.id dev)) "day" t ])
  /\
  (forall v,
      Device.deviceId dev = Some v ->
      v <> IdNum (JS.Num 0) -> v <> IdNum JS.NaN ->
      v <> IdStr EmptyString ->
      calls (mount N (Some dev) None tok now) =
      [ getDeviceChartDataEnhanced (deviceIdNumber v) "day" t ]).
Proof.
  intros Ek.
  assert (Hc : calls (mount N (Some dev) None tok now) =
               [ getDeviceChartDataEnhanced
                   (deviceIdNumber (device_argument dev)) "day" t ]).
  { unfold mount, selection_effect, loadDeviceChartData. simpl.
    rewrite Ek. reflexivity. }
  rewrite Hc. unfold device_argument. split.
  - intros [H | [H | [H | H]]]; rewrite H; reflexivity.
  - intros v Hv H0 Hn He. rewrite Hv.
    destruct v as [[z|]|[|c s]]; simpl; try congruence.
    destruct (Z.eqb_spec z 0); simpl; congruence.
Qed.

(** *** Settlements *)

Lemma find_drop_same {A : Type} (q : nat) (l : list (nat * A)) :
  find q (drop q l) = None.
Proof.
  unfold drop. induction l as [|[k a] l IH]; simpl; auto.
  destruct (Nat.eqb k q) eqn:E; simpl; auto. rewrite E. exact IH.
Qed.

Lemma find_drop_other {A : Type} (q q' : nat) (l : list (nat * A)) :
  q' <> q -> find q' (drop q l) = find q' l.
Proof.
  intros Hne. unfold drop. induction l as [|[k a] l IH]; simpl; auto.
  destruct (Nat.eqb k q) eqn:E; simpl.
  - apply Nat.eqb_eq in E. subst k.
    destruct (Nat.eqb q q') eqn:E'; auto.
    apply Nat.eqb_eq in E'. congruence.
  - rewrite IH. reflexivity.
Qed.

Lemma length_drop_found {A : Type} (q : nat) (a : A) (l : list (nat * A)) :
  find q l = Some a -> S (List.length (drop q l)) <= List.length l.
Proof.
  unfold drop. induction l as [|[k b] l IH]; simpl; [ discriminate | ].
  destruct (Nat.eqb k q) eqn:E; simpl.
  - intros _. pose proof (filter_length_le
        (fun p : nat * A => negb (Nat.eqb (fst p) q)) l). lia.
  - intros H. apply IH in H. lia.
Qed.

(** X8.  A successful answer to a pending device request replaces the
    device snapshot by the remapped answer, whatever is selected by then;
    the hierarchy snapshot, the console, the bindings and the call
    history stay as they were, the loading flag goes down and the request
    is no longer pending. *)
Theorem resolved_device_fetch_fills_slot
  (s : State) (q : RequestId) (deviceId : id_t) (data : Api.data_t)
  (now : string) :
  find q (inflight s) = Some (resumeDevice deviceId) ->
  let s' := step N s
              (SettleDevice q
                 (Resolved {| Api.success := true; Api.data := Some data |})
                 now) in
  chartData s' = Some (transformedData deviceId data now) /\
  hierarchyChartData s' = hierarchyChartData s /\
  isLoading s' = false /\ console s' = console s /\
  current s' = current s /\ calls s' = calls s /\
  timers s' = timers s /\ find q (inflight s') = None.
Proof.
  intros Hf. simpl. rewrite Hf. destruct s; simpl in *.
  repeat split; try reflexivity. apply find_drop_same.
Qed.

(** X9.  A successful answer to a pending hierarchy request is stored as
    it is in the hierarchy slot, whatever is selected by then; the device
    snapshot, the console, the bindings and the call history stay as
    they were, the loading flag goes down and the request is no longer
    pending. *)
Theorem resolved_hierarchy_fetch_fills_slot
  (s : State) (q : RequestId) (data : HierarchyChartData) :
  find q (inflight s) = Some resumeHierarchy ->
  let s' := step N s
              (SettleHierarchy q
                 (Resolved {| Api.success := true; Api.data := Some data |}))
  in
  hierarchyChartData s' = Some data /\
  chartData s' = chartData s /\
  isLoading s' = false /\ console s' = console s /\
  current s' = current s /\ calls s' = calls s /\
  timers s' = timers s /\ find q (inflight s') = None.
Proof.
  intros Hf. simpl. rewrite Hf. destruct s; simpl in *.
  repeat split; try reflexivity. apply find_drop_same.
Qed.

(** X10.  The settlement of one request takes the loading flag down even
    though another request is still pending, and leaves that other
    request pending. *)
Theorem settlement_clears_flag_despite_pending
  (s : State) (q q' : RequestId) (k' : Continuation) :
  q' <> q ->
  find q' (inflight s) = Some k' ->
  (forall deviceId o now,
      find q (inflight s) = Some (resumeDevice deviceId) ->
      isLoading (step N s (SettleDevice q o now)) = false /\
      find q' (inflight (step N s (SettleDevice q o now))) = Some k') /\
  (forall o,
      find q (inflight s) = Some resumeHierarchy ->
      isLoading (step N s (SettleHierarchy q o)) = false /\
      find q' (inflight (step N s (SettleHierarchy q o))) = Some k').
Proof.
  intros Hne Hq'. split.
  - intros deviceId o now Hf. simpl. rewrite Hf.
    destruct s; simpl in *.
    destruct o as [[[] [d|]]|err]; simpl;
      rewrite (find_drop_other q q' _ Hne); auto.
  - intros o Hf. simpl. rewrite Hf.
    destruct s; simpl in *.
    destruct o as [[[] [d|]]|err]; simpl;
      rewrite (find_drop_other q q' _ Hne); auto.
Qed.

(** X11.  Unmounting cancels the interval but no request: what was
    pending stays pending, and a rejection that arrives afterwards is
    still written to the console. *)
Theorem unmount_keeps_pending_requests (s : State) :
  inflight (step N s Unmount) = inflight s /\
  calls (step N s Unmount) = calls s /\
  console (step N s Unmount) = console s /\
  (forall q deviceId error now,
      find q (inflight s) = Some (resumeDevice deviceId) ->
      console (step N (step N s Unmount)
                 (SettleDevice q (Rejected error) now))
      = console s ++ [("Failed to load device chart data:", error)]) /\
  (forall q error,
      find q (inflight s) = Some resumeHierarchy ->
      console (step N (step N s Unmount) (SettleHierarchy q (Rejected error)))
      = console s ++ [("Failed to load hierarchy chart data:", error)]).
Proof.
  assert (H : inflight (step N s Unmount) = inflight s /\
              calls (step N s Unmount) = calls s /\
              console (step N s Unmount) = console s).
  { simpl. destruct (mounted s); auto.
    destruct s; simpl. destruct refreshIntervalRef0; simpl; auto. }
  destruct H as (Hi & Hc & Hl).
  repeat split; auto.
  - intros q deviceId error now Hf.
    remember (step N s Unmount) as u eqn:Hu.
    simpl. rewrite Hi, Hf, <- Hl. destruct u; reflexivity.
  - intros q error Hf.
    remember (step N s Unmount) as u eqn:Hu.
    simpl. rewrite Hi, Hf, <- Hl. destruct u; reflexivity.
Qed.

(** *** Renders *)

Lemma with_props_same (r : Render) :
  with_props r (selectedDevice r) (selectedHierarchy r) (token r) = r.
Proof. destruct r; reflexivity. Qed.

Lemma with_timeRange_same (r : Render) : with_timeRange r (timeRange r) = r.
Proof. destruct r; reflexivity. Qed.

(** X12.  A render whose props, token and time range are the ones already
    current changes nothing and makes no call: a click on the button of
    the current time range, or the same props and token again. *)
Theorem unchanged_bindings_do_nothing (s : State) :
  (forall o,
      option_value o = timeRange (current s) -> step N s (Click o) = s) /\
  step N s (Props (selectedDevice (current s))
              (selectedHierarchy (current s)) (token (current s))) = s.
Proof.
  split.
  - intros o Ho. simpl. destruct (mounted s); auto.
    rewrite Ho, with_timeRange_same.
    apply rerender_same, selection_deps_same_refl.
  - simpl. destruct (mounted s); auto.
    rewrite with_props_same.
    apply rerender_same, selection_deps_same_refl.
Qed.

Lemma rerender_keeps_own_snapshot (r' : Render) (s : State) :
  (active_kind r' = Some DeviceKind ->
   chartData (rerender N r' s) = chartData s) /\
  (active_kind r' = Some HierarchyKind ->
   hierarchyChartData (rerender N r' s) = hierarchyChartData s).
Proof.
  unfold active_kind, rerender, selection_effect, startAutoRefresh,
    timer_cleanup, loadDeviceChartData, loadHierarchyChartData.
  destruct s; simpl.
  destruct (timer_deps_same _ _), (selection_deps_same _ _),
    refreshIntervalRef0, (selectedDevice r'), (selectedHierarchy r'),
    (token_truthy (token r')); simpl; split; intros Hk;
    try discriminate; reflexivity.
Qed.

(** X13.  A render never clears the snapshot of the kind it selects:
    choosing another device keeps the previous device's snapshot on
    display until an answer replaces it, and likewise for hierarchy
    nodes. *)
Theorem reselect_keeps_own_snapshot (s : State) (e : Event) :
  is_render e = true ->
  (active_kind (current (step N s e)) = Some DeviceKind ->
   chartData (step N s e) = chartData s) /\
  (active_kind (current (step N s e)) = Some HierarchyKind ->
   hierarchyChartData (step N s e) = hierarchyChartData s).
Proof.
  intros He. destruct e; try discriminate; simpl;
    (destruct (mounted s); [ | auto ]);
    rewrite current_rerender; apply rerender_keeps_own_snapshot.
Qed.

(** *** The call history and the console *)

Lemma calls_step (s : State) (e : Event) :
  exists l, calls (step N s e) = calls s ++ l /\ List.length l <= 1.
Proof.
  assert (Hnil : exists l, calls s = calls s ++ l /\ List.length l <= 1).
  { exists []. rewrite app_nil_r. auto. }
  assert (Hre : forall r',
             exists l, calls (rerender N r' s) = calls s ++ l /\
                       List.length l <= 1).
  { intros r'. destruct (selection_deps_same (current s) r') eqn:Es.
    - rewrite (rerender_same N r' s Es). exact Hnil.
    - rewrite (calls_rerender N r' s Es). eexists; split; [ reflexivity | ].
      destruct (selectedDevice r'), (selectedHierarchy r'),
        (token_truthy (token r')); simpl; lia. }
  destruct e; simpl.
  - destruct (mounted s); auto.
  - destruct (mounted s); auto.
  - destruct (find t (timers s)) as [r|]; auto.
    unfold interval_callback, loadDeviceChartData, loadHierarchyChartData.
    destruct s; simpl.
    destruct (selectedDevice r), (selectedHierarchy r),
      (token_truthy (token r)); simpl;
      solve [ exists []; rewrite app_nil_r; auto
            | eexists; split; [ reflexivity | simpl; lia ] ].
  - destruct (find q (inflight s)) as [[k|]|]; auto.
    destruct s; simpl. destruct o as [[[] [d|]]|err]; simpl;
      exists []; rewrite app_nil_r; auto.
  - destruct (find q (inflight s)) as [[k|]|]; auto.
    destruct s; simpl. destruct o as [[[] [d|]]|err]; simpl;
      exists []; rewrite app_nil_r; auto.
  - destruct (mounted s); auto.
    destruct s; simpl. destruct refreshIntervalRef0; simpl;
      exists []; rewrite app_nil_r; auto.
Qed.

Lemma console_step (s : State) (e : Event) :
  exists l, console (step N s e) = console s ++ l /\ List.length l <= 1.
Proof.
  assert (Hnil : exists l, console s = console s ++ l /\
                           List.length l <= 1).
  { exists []. rewrite app_nil_r. auto. }
  assert (Hre : forall r', console (rerender N r' s) = console s).
  { intros r'. unfold rerender, selection_effect, startAutoRefresh,
      timer_cleanup, loadDeviceChartData, loadHierarchyChartData.
    destruct s; simpl.
    destruct (timer_deps_same _ _), (selection_deps_same _ _),
      refreshIntervalRef0, (selectedDevice r'), (selectedHierarchy r'),
      (token_truthy (token r')); reflexivity. }
  destruct e; simpl.
  - destruct (mounted s); auto. rewrite Hre. exact Hnil.
  - destruct (mounted s); auto. rewrite Hre. exact Hnil.
  - destruct (find t (timers s)) as [r|]; auto.
    unfold interval_callback, loadDeviceChartData, loadHierarchyChartData.
    destruct s; simpl.
    destruct (selectedDevice r), (selectedHierarchy r),
      (token_truthy (token r)); simpl; exists []; rewrite app_nil_r; auto.
  - destruct (find q (inflight s)) as [[k|]|]; auto.
    destruct s; simpl. destruct o as [[[] [d|]]|err]; simpl;
      solve [ exists []; rewrite app_nil_r; auto
            | eexists; split; [ reflexivity | simpl; lia ] ].
  - destruct (find q (inflight s)) as [[k|]|]; auto.
    destruct s; simpl. destruct o as [[[] [d|]]|err]; simpl;
      solve [ exists []; rewrite app_nil_r; auto
            | eexists; split; [ reflexivity | simpl; lia ] ].
  - destruct (mounted s); auto.
    destruct s; simpl. destruct refreshIntervalRef0; simpl;
      exists []; rewrite app_nil_r; auto.
Qed.

(** X14.  No step rewrites history: the call history and the console
    after a step are the ones before it followed by what the step added,
    which is at most one endpoint call and at most one console line. *)
Theorem at_most_one_call_per_step (s : State) (e : Event) :
  calls (step N s e) = calls s ++ issued N s e /\
  List.length (issued N s e) <= 1 /\
  console (step N s e) = console s ++ logged N s e /\
  List.length (logged N s e) <= 1.
Proof.
  destruct (calls_step s e) as (l & Hl & Hn).
  destruct (console_step s e) as (k & Hk & Hm).
  unfold issued, logged. rewrite Hl, Hk, !skipn_length_app. auto.
Qed.

(** *** Time ranges and tokens *)

Lemma token_truthy_Some (tok : option string) (t : string) :
  token_truthy tok = Some t -> JS.string_truthy t = true.
Proof.
  unfold token_truthy. destruct tok as [t'|]; [ | discriminate ].
  destruct (JS.string_truthy t') eqn:E; [ | discriminate ].
  intros H. inversion H. subst. exact E.
Qed.

Lemma is_option_value (o : TimeRangeOption) :
  is_option (option_value o) = true.
Proof. destruct o; reflexivity. Qed.

Lemma is_option_inv (v : string) :
  is_option v = true -> exists o, v = option_value o.
Proof.
  unfold is_option. intros H. apply existsb_exists in H.
  destruct H as (o & _ & H). apply String.eqb_eq in H. eauto.
Qed.

Lemma Ranges_mount d h tok now : Ranges (mount N d h tok now).
Proof.
  destruct (mount_effects d h tok now)
    as (Hc & _ & _ & _ & _ & Ht & _ & Hcur & _).
  split.
  - rewrite Hcur. reflexivity.
  - rewrite Ht, Hcur. reflexivity.
  - rewrite Hc.
    destruct d, h, (token_truthy tok) as [tk|] eqn:Ek; try reflexivity;
      simpl; unfold well_formed_call; simpl;
      rewrite (token_truthy_Some tok tk Ek); reflexivity.
Qed.

Lemma Ranges_rerender (r' : Render) (s : State) :
  is_option (timeRange r') = true -> Ranges s -> Ranges (rerender N r' s).
Proof.
  intros Hr HR.
  destruct (selection_deps_same (current s) r') eqn:Es.
  { rewrite rerender_same; assumption. }
  destruct HR as [Hc Ht Hk]. split.
  - rewrite current_rerender. exact Hr.
  - unfold rerender, selection_effect, startAutoRefresh, timer_cleanup,
      loadDeviceChartData, loadHierarchyChartData. rewrite Es.
    destruct s; simpl in *.
    destruct (timer_deps_same _ _), refreshIntervalRef0,
      (selectedDevice r'), (selectedHierarchy r'),
      (token_truthy (token r')); simpl;
      rewrite ?forallb_app; simpl; rewrite ?Hr; simpl;
      rewrite ?andb_true_r; auto using forallb_drop.
  - rewrite (calls_rerender N r' s Es), forallb_app, Hk. simpl.
    destruct (selectedDevice r'), (selectedHierarchy r'),
      (token_truthy (token r')) as [tk|] eqn:Ek; try reflexivity;
      simpl; unfold well_formed_call; simpl;
      rewrite (token_truthy_Some _ tk Ek), Hr; reflexivity.
Qed.

Lemma Ranges_step (s : State) (e : Event) : Ranges s -> Ranges (step N s e).
Proof.
  intros HR. destruct e; simpl.
  - destruct (mounted s); auto. apply Ranges_rerender; auto.
    apply HR.
  - destruct (mounted s); auto. apply Ranges_rerender; auto.
    apply is_option_value.
  - destruct (find t (timers s)) as [r|] eqn:Hf; auto.
    destruct HR as [Hc Ht Hk].
    pose proof (forallb_find (fun r0 => is_option (timeRange r0))
                  t r (timers s) Hf Ht) as Hr.
    unfold interval_callback, loadDeviceChartData, loadHierarchyChartData.
    destruct s; simpl in *.
    destruct (selectedDevice r), (selectedHierarchy r),
      (token_truthy (token r)) as [tk|] eqn:Ek; simpl;
      split; simpl; auto;
      rewrite forallb_app, Hk; simpl; unfold well_formed_call; simpl;
      rewrite (token_truthy_Some _ tk Ek), Hr; reflexivity.
  - destruct (find q (inflight s)) as [[k|]|]; auto.
    destruct HR as [Hc Ht Hk]. destruct s; simpl in *.
    destruct o as [[[] [d|]]|err]; simpl; split; auto.
  - destruct (find q (inflight s)) as [[k|]|]; auto.
    destruct HR as [Hc Ht Hk]. destruct s; simpl in *.
    destruct o as [[[] [d|]]|err]; simpl; split; auto.
  - destruct (mounted s); auto.
    destruct HR as [Hc Ht Hk]. destruct s; simpl in *.
    destruct refreshIntervalRef0; simpl; split; simpl;
      auto using forallb_drop.
Qed.

Lemma Ranges_reachable (s : State) : reachable N s -> Ranges s.
Proof.
  induction 1; [ apply Ranges_mount | apply Ranges_step; assumption ].
Qed.

(** X15.  In every state a run reaches, the time range is one of "hour",
    "day", "week" and "month", and every endpoint call made so far
    carried a non-empty token and one of these four time ranges. *)
Theorem calls_carry_token_and_known_range (s : State) :
  reachable N s ->
  (exists o, timeRange (current s) = option_value o) /\
  forall c,
    In c (calls s) ->
    call_token c <> EmptyString /\
    exists o, call_timeRange c = option_value o.
Proof.
  intros Hr. destruct (Ranges_reachable s Hr) as [Hc _ Hk].
  split; [ apply is_option_inv; exact Hc | ].
  intros c Hin. rewrite forallb_forall in Hk. specialize (Hk c Hin).
  unfold well_formed_call in Hk. apply andb_true_iff in Hk.
  destruct Hk as [Ht Ho]. split.
  - intros E. rewrite E in Ht. discriminate.
  - apply is_option_inv. exact Ho.
Qed.

(** X16.  In every state a run reaches, exactly one of the four
    time-range buttons is drawn as selected, the one of the current time
    range; the loading line is shown only while some request is pending,
    and names the current time range; truthy children replace all of
    it. *)
Theorem one_button_selected (s : State) :
  reachable N s ->
  (exists o,
      timeRange (current s) = option_value o /\
      List.length (time_range_buttons s) = 4 /\
      filter (fun b => snd b) (time_range_buttons s)
      = [(option_label o, true)]) /\
  (forall line,
      loading_line s = Some line ->
      inflight s <> [] /\
      line = ("Loading " ++ timeRange (current s) ++ " data...")%string) /\
  (forall c, render (Some c) s = ShowChildren c) /\
  render None s
  = ShowDashboard (time_range_buttons s) (loading_line s) (view s).
Proof.
  intros Hr.
  destruct (Ranges_reachable s Hr) as [Hc _ _].
  destruct (Inv_reachable N s Hr) as [_ Hl _].
  split; [ | split; [ | split; reflexivity ] ].
  - apply is_option_inv in Hc. destruct Hc as [o Ho]. exists o.
    unfold time_range_buttons. rewrite Ho.
    destruct o; repeat split; reflexivity.
  - unfold loading_line. intros line.
    destruct (isLoading s); [ | discriminate ].
    intros H. inversion H. split; auto.
Qed.

(** *** The interval and the time range *)

Lemma issued_tick (s : State) (t : TimerId) (r : Render) (now : Date) :
  find t (timers s) = Some r ->
  issued N s (Tick t now) =
  match selectedDevice r, selectedHierarchy r, token_truthy (token r) with
  | Some d, None, Some tok =>
      [ getDeviceChartDataEnhanced (deviceIdNumber (device_argument d))
          (timeRange r) tok ]
  | None, Some h, Some tok =>
      [ getHierarchyChartDataEnhanced (toNumber N (Hierarchy.id h))
          (timeRange r) tok ]
  | _, _, _ => []
  end.
Proof.
  intros Hf. unfold issued. simpl. rewrite Hf.
  unfold interval_callback, loadDeviceChartData, loadHierarchyChartData.
  destruct s; simpl.
  destruct (selectedDevice r), (selectedHierarchy r),
    (token_truthy (token r)); simpl;
    rewrite ?skipn_length_self, ?skipn_length_app; reflexivity.
Qed.

(** X17.  A click on a time-range button changes the current time range
    but not the interval: the interval stays the same one, closing over
    the same render, and every call its next firing makes carries the
    time range of that render, which is not the current one when the
    click chose a different range. *)
Theorem interval_ignores_time_range_clicks
  (s : State) (t : TimerId) (r : Render) (o : TimeRangeOption)
  (now : Date) :
  reachable N s ->
  find t (timers s) = Some r ->
  let s1 := step N s (Click o) in
  timers s1 = timers s /\
  timeRange (current s1) = option_value o /\
  forall c,
    In c (issued N s1 (Tick t now)) ->
    call_timeRange c = timeRange r /\
    (option_value o <> timeRange r ->
     call_timeRange c <> timeRange (current s1)).
Proof.
  intros Hr Hf s1.
  destruct (live_timer N s t r Hr Hf) as (Hm & _).
  assert (Hs1 : s1 = rerender N (with_timeRange (current s) (option_value o))
                       s).
  { subst s1. simpl. rewrite Hm. reflexivity. }
  assert (Ht : timers s1 = timers s).
  { rewrite Hs1. apply timers_rerender_same.
    apply timer_deps_same_refl; reflexivity. }
  assert (Hc : timeRange (current s1) = option_value o).
  { rewrite Hs1, current_rerender. reflexivity. }
  split; [ exact Ht | ]. split; [ exact Hc | ].
  intros c Hin. rewrite <- Ht in Hf.
  rewrite (issued_tick s1 t r now Hf) in Hin.
  assert (Hcr : call_timeRange c = timeRange r).
  { destruct (selectedDevice r), (selectedHierarchy r),
      (token_truthy (token r)); simpl in Hin;
      try contradiction; destruct Hin as [<- | []]; reflexivity. }
  split; [ exact Hcr | ].
  intros Hne. rewrite Hcr, Hc. congruence.
Qed.

(** *** Requests, calls and console lines *)

Lemma accounting_rerender (r' : Render) (s : State) :
  List.length (console s) + List.length (inflight s)
  <= List.length (calls s) ->
  List.length (console (rerender N r' s))
  + List.length (inflight (rerender N r' s))
  <= List.length (calls (rerender N r' s)).
Proof.
  unfold rerender, selection_effect, startAutoRefresh, timer_cleanup,
    loadDeviceChartData, loadHierarchyChartData.
  destruct s; simpl.
  destruct (timer_deps_same _ _), (selection_deps_same _ _),
    refreshIntervalRef0, (selectedDevice r'), (selectedHierarchy r'),
    (token_truthy (token r')); simpl;
    rewrite ?length_app; simpl; lia.
Qed.

Lemma accounting_step (s : State) (e : Event) :
  List.length (console s) + List.length (inflight s)
  <= List.length (calls s) ->
  List.length (console (step N s e)) + List.length (inflight (step N s e))
  <= List.length (calls (step N s e)).
Proof.
  intros H. destruct e; simpl.
  - destruct (mounted s); auto using accounting_rerender.
  - destruct (mounted s); auto using accounting_rerender.
  - destruct (find t (timers s)) as [r|]; auto.
    unfold interval_callback, loadDeviceChartData, loadHierarchyChartData.
    destruct s; simpl in *.
    destruct (selectedDevice r), (selectedHierarchy r),
      (token_truthy (token r)); simpl;
      rewrite ?length_app; simpl; lia.
  - destruct (find q (inflight s)) as [[k|]|] eqn:Hf; auto.
    pose proof (length_drop_found q _ _ Hf) as Hd.
    destruct s; simpl in *. unfold RequestId in *.
    destruct o as [[[] [d|]]|err]; simpl;
      rewrite ?length_app; simpl; lia.
  - destruct (find q (inflight s)) as [[k|]|] eqn:Hf; auto.
    pose proof (length_drop_found q _ _ Hf) as Hd.
    destruct s; simpl in *. unfold RequestId in *.
    destruct o as [[[] [d|]]|err]; simpl;
      rewrite ?length_app; simpl; lia.
  - destruct (mounted s); auto.
    destruct s; simpl in *. destruct refreshIntervalRef0; simpl; lia.
Qed.

(** X18.  In every state a run reaches, the pending requests and the
    console lines together are no more than the endpoint calls made:
    every pending request and every logged failure goes back to a call
    of its own, and nothing is logged before a call was made. *)
Theorem every_failure_has_its_call (s : State) :
  reachable N s ->
  List.length (console s) + List.length (inflight s)
  <= List.length (calls s) /\
  (calls s = [] -> console s = [] /\ inflight s = []).
Proof.
  intros Hr.
  assert (H : List.length (console s) + List.length (inflight s)
              <= List.length (calls s)).
  { induction Hr as [d h tok now | s e Hr IH].
    - destruct (mount_effects d h tok now)
        as (_ & _ & Hi & _ & _ & _ & _ & _ & _ & Hc).
      rewrite Hc, Hi. simpl. lia.
    - apply accounting_step. exact IH. }
  split; [ exact H | ].
  intros E. rewrite E in H. simpl in H.
  destruct (console s), (inflight s); simpl in H; try lia. auto.
Qed.

End More.

(** ** Concrete runs of the further properties *)




Lemma falsy_deviceId_falls_back_to_id_witness :
  token_truthy (Some "tok") = Some "tok" /\
  Device.deviceId hex_device = Some (IdNum (JS.Num 0)) /\
  calls (mount DecimalToNumber (Some hex_device) None (Some "tok") 1000%Z)
  = [ getDeviceChartDataEnhanced (JS.Num 31) "day" "tok" ].
Proof.
  split; [ reflexivity | ]. split; [ reflexivity | ].
  apply (proj1 (falsy_deviceId_falls_back_to_id DecimalToNumber hex_device
                  (Some "tok") "tok" 1000%Z eq_refl)).
  right. left. reflexivity.
Defined.

Lemma resolved_device_fetch_fills_slot_witness :
  find 1 (inflight device_mounted) = Some (resumeDevice (IdNum (JS.Num 7))) /\
  chartData device_loaded
  = Some (transformedData (IdNum (JS.Num 7)) sample_data iso_now) /\
  isLoading device_loaded = false.
Proof.
  pose proof (resolved_device_fetch_fills_slot DecimalToNumber device_mounted
                1 (IdNum (JS.Num 7)) sample_data iso_now eq_refl)
    as (Hc & _ & Hl & _).
  split; [ reflexivity | ]. split; [ exact Hc | exact Hl ].
Defined.

Lemma resolved_hierarchy_fetch_fills_slot_witness :
  find 1 (inflight region_mounted) = Some resumeHierarchy /\
  hierarchyChartData
    (step DecimalToNumber region_mounted (SettleHierarchy 1 hierarchy_ok))
  = Some {| payload := 12 |}.
Proof.
  pose proof (resolved_hierarchy_fetch_fills_slot DecimalToNumber
                region_mounted 1 {| payload := 12 |} eq_refl)
    as (Hh & _).
  split; [ reflexivity | exact Hh ].
Defined.

Lemma settlement_clears_flag_despite_pending_witness :
  find 1 (inflight two_pending) = Some (resumeDevice (IdNum (JS.Num 7))) /\
  find 2 (inflight two_pending) = Some (resumeDevice (IdNum (JS.Num 7))) /\
  isLoading (step DecimalToNumber two_pending (SettleDevice 1 device_ok iso_now))
  = false /\
  find 2 (inflight (step DecimalToNumber two_pending
                      (SettleDevice 1 device_ok iso_now)))
  = Some (resumeDevice (IdNum (JS.Num 7))).
Proof.
  assert (Hne : 2 <> 1) by discriminate.
  pose proof (proj1 (settlement_clears_flag_despite_pending DecimalToNumber
                       two_pending 1 2 (resumeDevice (IdNum (JS.Num 7)))
                       Hne eq_refl)
                (IdNum (JS.Num 7)) device_ok iso_now eq_refl) as [Hl Hp].
  split; [ reflexivity | ]. split; [ reflexivity | ].
  split; [ exact Hl | exact Hp ].
Defined.

Lemma reselect_keeps_own_snapshot_witness :
  is_render (Props (Some hex_device) None (Some "tok")) = true /\
  chartData device_loaded <> None /\
  chartData (step DecimalToNumber device_loaded
               (Props (Some hex_device) None (Some "tok")))
  = chartData device_loaded.
Proof.
  split; [ reflexivity | ]. split; [ vm_compute; discriminate | ].
  apply (proj1 (reselect_keeps_own_snapshot DecimalToNumber device_loaded
                  (Props (Some hex_device) None (Some "tok")) eq_refl)).
  reflexivity.
Defined.

Lemma calls_carry_token_and_known_range_witness :
  reachable DecimalToNumber two_pending /\
  In (getDeviceChartDataEnhanced (JS.Num 7) "week" "tok") (calls two_pending)
  /\
  exists o,
    call_timeRange (getDeviceChartDataEnhanced (JS.Num 7) "week" "tok")
    = option_value o.
Proof.
  assert (H : reachable DecimalToNumber two_pending).
  { unfold two_pending. apply reach_step, reach_mount. }
  assert (Hin : In (getDeviceChartDataEnhanced (JS.Num 7) "week" "tok")
                  (calls two_pending)).
  { right. left. reflexivity. }
  split; [ exact H | ]. split; [ exact Hin | ].
  apply (proj2 (calls_carry_token_and_known_range DecimalToNumber two_pending
                  H) _ Hin).
Defined.

Lemma one_button_selected_witness :
  reachable DecimalToNumber two_pending /\
  time_range_buttons two_pending
  = [("Hour", false); ("Day", false); ("Week", true); ("Month", false)] /\
  exists o,
    timeRange (current two_pending) = option_value o /\
    List.length (time_range_buttons two_pending) = 4 /\
    filter (fun b => snd b) (time_range_buttons two_pending)
    = [(option_label o, true)].
Proof.
  assert (H : reachable DecimalToNumber two_pending).
  { unfold two_pending. apply reach_step, reach_mount. }
  split; [ exact H | ]. split; [ reflexivity | ].
  apply (proj1 (one_button_selected DecimalToNumber two_pending H)).
Defined.

Lemma interval_ignores_time_range_clicks_witness :
  reachable DecimalToNumber device_mounted /\
  find 1 (timers device_mounted) = Some (current device_mounted) /\
  timeRange (current two_pending) = "week" /\
  issued DecimalToNumber two_pending (Tick 1 6000%Z)
  = [getDeviceChartDataEnhanced (JS.Num 7) "day" "tok"] /\
  call_timeRange (getDeviceChartDataEnhanced (JS.Num 7) "day" "tok")
  <> timeRange (current two_pending).
Proof.
  assert (H : reachable DecimalToNumber device_mounted) by apply reach_mount.
  pose proof (interval_ignores_time_range_clicks DecimalToNumber
                device_mounted 1 (current device_mounted) Week 6000%Z
                H eq_refl) as (_ & Hc & Hcalls).
  split; [ exact H | ]. split; [ reflexivity | ].
  split; [ exact Hc | ]. split; [ reflexivity | ].
  apply (Hcalls (getDeviceChartDataEnhanced (JS.Num 7) "day" "tok")).
  - left. reflexivity.
  - discriminate.
Defined.

Lemma every_failure_has_its_call_witness :
  reachable DecimalToNumber two_pending /\
  List.length (console two_pending) + List.length (inflight two_pending)
  <= List.length (calls two_pending).
Proof.
  assert (H : reachable DecimalToNumber two_pending).
  { unfold two_pending. apply reach_step, reach_mount. }
  split; [ exact H | ].
  apply (proj1 (every_failure_has_its_call DecimalToNumber two_pending H)).
Defined.

Lemma snapshot_fields_are_filled_witness :
  Api.companyName (Api.device sample_data) = JS.Undefined /\
  JS.truthy
    (Chart.company
       (Chart.device (transformedData (IdStr "x") sample_data iso_now)))
  = true /\
  (Chart.id (Chart.device (transformedData (IdStr "x") sample_data iso_now))
   = EmptyString -> IdStr "x" = IdStr EmptyString).
Proof.
  pose proof (snapshot_fields_are_filled (IdStr "x") sample_data iso_now)
    as (Hc & _ & Hi).
  split; [ reflexivity | ]. split; [ exact Hc | exact Hi ].
Defined.

Lemma display_flags_exclude_each_other_witness :
  selectedDevice (current device_mounted) <> None /\
  shouldShowFractions (current device_mounted) = true /\
  shouldShowTopRegions (current device_mounted) = false /\
  shouldShowTopRegions (current region_mounted) = true /\
  shouldShowFractions
    (with_props (current device_mounted) None (Some well9) None) = true.
Proof.
  assert (Hd : selectedDevice (current device_mounted) <> None)
    by discriminate.
  destruct (proj1 (proj2 (display_flags_exclude_each_other
                            (current device_mounted))) Hd) as [Hf Ht].
  split; [ exact Hd | ]. split; [ exact Hf | ]. split; [ exact Ht | ].
  split; reflexivity.
Defined.

Lemma unmount_keeps_pending_requests_witness :
  find 1 (inflight device_mounted) = Some (resumeDevice (IdNum (JS.Num 7))) /\
  timers (step DecimalToNumber device_mounted Unmount) = [] /\
  inflight (step DecimalToNumber device_mounted Unmount)
  = inflight device_mounted /\
  console (step DecimalToNumber
             (step DecimalToNumber device_mounted Unmount)
             (SettleDevice 1 (Rejected (JS.Str "timeout")) iso_now))
  = [("Failed to load device chart data:", JS.Str "timeout")].
Proof.
  pose proof (unmount_keeps_pending_requests DecimalToNumber device_mounted)
    as (Hi & _ & _ & Hd & _).
  split; [ reflexivity | ]. split; [ reflexivity | ].
  split; [ exact Hi | ].
  apply (Hd 1 (IdNum (JS.Num 7)) (JS.Str "timeout") iso_now). reflexivity.
Defined.

Lemma unchanged_bindings_do_nothing_witness :
  option_value Week = timeRange (current two_pending) /\
  step DecimalToNumber two_pending (Click Week) = two_pending /\
  step DecimalToNumber two_pending (Click Day) <> two_pending.
Proof.
  split; [ reflexivity | ]. split.
  - apply (proj1 (unchanged_bindings_do_nothing DecimalToNumber two_pending)
             Week).
    reflexivity.
  - intros E. apply (f_equal calls) in E. vm_compute in E. discriminate.
Defined.
